(** * PPTist-backend fixture builders

    A shallow embedding of the two fixture-building scripts

      - [scripts/create-test-pptx.py]          (module [CreateTestPptx])
      - [tests/fixtures/create_simple_pptx.py] (module [CreateSimplePptx])

    Both scripts are straight-line Python: they import python-pptx, build
    one [Presentation] object by a fixed sequence of calls into the
    library, save it and print status lines.  The embedding keeps that
    shape: a state-and-exception monad [M] over a [world] (the presentation
    object on the heap, the file system, the two output streams), one
    monadic operation per library call, and one definition per script whose
    lines follow the source's lines.

    python-pptx is an external library.  Module [Pptx] models the part of
    its object model that the scripts touch.  Every call into the library
    may raise: the run environment carries a fault table that decides, call
    by call, whether the library raises and what.  It also tells whether
    [sys.stdout] has the binary buffer line 14 of create-test-pptx.py
    reads, and how far a failing [prs.save] got. *)

From Stdlib Require Import ZArith QArith String Ascii List.
From stdpp Require Import base option list gmap strings pretty.

Local Open Scope Z_scope.

(** ** Python: exceptions and results *)

Module Py.

(** Exception classes.  All of them derive from [Exception];
    [ModuleNotFoundError] derives from [ImportError]. *)
Inductive exn_class :=
| ImportError
| ModuleNotFoundError
| NameError
| AttributeError
| IndexError
| KeyError
| TypeError
| ValueError
| OSError
| OtherException (name : string).

(** An exception instance; [exn_msg] is what [str(e)] returns. *)
Record exn := Exn { exn_cls : exn_class; exn_msg : string }.

(** [isinstance(e, ImportError)] *)
Definition is_ImportError (e : exn) : bool :=
  match exn_cls e with
  | ImportError | ModuleNotFoundError => true
  | _ => false
  end.

(** [isinstance(e, Exception)] *)
Definition is_Exception (e : exn) : bool := true.

Inductive result (A : Type) :=
| Ok (a : A)
| Raise (e : exn).
Arguments Ok {A} a.
Arguments Raise {A} e.

(** One write to standard error. *)
Inductive stderr_item :=
| Traceback (e : exn).

End Py.

(** ** The python-pptx object model, as far as the scripts use it *)

Module Pptx.
Import Py.

Definition EMUS_PER_INCH : Z := 914400.
Definition EMUS_PER_PT : Z := 12700.

(** Python's [int(x)] on a number: truncation towards zero. *)
Definition py_int (q : Q) : Z := Z.quot (Qnum q) (Z.pos (Qden q)).

(** [pptx.util.Inches(x)] is [int(x * 914400)], a length in EMU.  The
    arguments the scripts pass (integers, 7.5, 1.5) are dyadic, so the
    float product is exact and a rational models it. *)
Definition Inches (x : Q) : Z := py_int (x * inject_Z EMUS_PER_INCH)%Q.

(** [pptx.util.Pt(x)] is [int(x * 12700)]. *)
Definition Pt (x : Q) : Z := py_int (x * inject_Z EMUS_PER_PT)%Q.

Record rgb := Rgb { red : Z; green : Z; blue : Z }.

(** [RGBColor(r, g, b)] raises [ValueError] unless each component is in
    0..255. *)
Definition in_byte_range (v : Z) : bool := (0 <=? v) && (v <=? 255).

Definition RGBColor (r g b : Z) : result rgb :=
  if in_byte_range r && in_byte_range g && in_byte_range b
  then Ok (Rgb r g b)
  else Raise (Exn ValueError "RGBColor() takes three integer values 0-255").

Inductive MSO_SHAPE :=
| RECTANGLE
| ROUNDED_RECTANGLE
| OVAL.

Inductive ph_type :=
| PH_TITLE
| PH_CENTER_TITLE
| PH_SUBTITLE
| PH_BODY
| PH_OBJECT
| PH_DATE
| PH_FOOTER
| PH_SLIDE_NUMBER
| PH_OTHER.

(** A placeholder of a slide layout: its [idx] key and its type. *)
Record layout_placeholder := LayoutPh { lph_idx : nat; lph_type : ph_type }.

Record slide_layout := SlideLayout {
  layout_name : string;
  layout_placeholders : list layout_placeholder
}.

(** The template [Presentation()] opens: page size and slide layouts.
    The bundled default template has no slides. *)
Record template := Template {
  tpl_slide_width : Z;
  tpl_slide_height : Z;
  tpl_layouts : list slide_layout
}.

(** A paragraph: its text, the paragraph-level font ([p.font]) and the
    indent level.  [None] is "not set, inherited". *)
Record paragraph := Paragraph {
  para_text : string;
  para_font_size : option Z;
  para_font_bold : option bool;
  para_level : nat
}.

Record text_frame := TextFrame {
  word_wrap : option bool;
  paragraphs : list paragraph
}.

(** A fill: not set and so inherited ([fill.type] is [None]), explicitly
    none ([<a:noFill/>], [fill.type] is [MSO_FILL.BACKGROUND]), or solid. *)
Inductive fill_format :=
| FillInherited
| FillBackground
| FillSolid (fore_color : option rgb).

Record line_format := LineFormat {
  line_fill : fill_format;
  line_width : option Z
}.

Inductive shape_kind :=
| Placeholder (idx : nat) (ty : ph_type)
| TextBox
| AutoShape (t : MSO_SHAPE).

Record geometry := Geometry {
  geo_left : Z;
  geo_top : Z;
  geo_width : Z;
  geo_height : Z
}.

Record shape := Shape {
  sh_kind : shape_kind;
  sh_geometry : option geometry;      (* None: inherited from the layout *)
  sh_text_frame : text_frame;
  sh_fill : fill_format;
  sh_line : line_format
}.

Record slide := Slide {
  slide_layout_name : string;
  slide_shapes : list shape
}.

Record presentation := Presentation_ {
  slide_width : Z;
  slide_height : Z;
  slide_layouts : list slide_layout;
  slides : list slide
}.

(** References into the presentation object.  The scripts keep Python
    references to slides, shapes and paragraphs and mutate through them;
    a reference is the path of the object inside the presentation, and
    every mutation goes through the one stored presentation. *)
Definition slide_ref : Type := nat.
Definition shape_ref : Type := nat * nat.
Definition para_ref : Type := nat * nat * nat.

(** *** Pure parts of the library *)

Definition empty_paragraph : paragraph :=
  Paragraph "" None None 0.

Definition no_line : line_format := LineFormat FillInherited None.

(** [add_slide] clones the layout's placeholders except date, footer and
    slide number. *)
Definition cloneable (ph : layout_placeholder) : bool :=
  match lph_type ph with
  | PH_DATE | PH_FOOTER | PH_SLIDE_NUMBER => false
  | _ => true
  end.

Definition clone_placeholder (ph : layout_placeholder) : shape :=
  Shape (Placeholder (lph_idx ph) (lph_type ph)) None
        (TextFrame None [empty_paragraph]) FillInherited no_line.

Definition cloned_placeholders (layout : slide_layout) : list shape :=
  clone_placeholder <$> List.filter cloneable (layout_placeholders layout).

Definition new_slide (layout : slide_layout) : slide :=
  Slide (layout_name layout) (cloned_placeholders layout).

(** The shape [add_textbox] inserts: a rectangle with an explicit
    no-fill, no outline of its own, a text body that does not wrap
    ([wrap="none"]) and one empty paragraph. *)
Definition new_textbox (l t w h : Z) : shape :=
  Shape TextBox (Some (Geometry l t w h))
        (TextFrame (Some false) [empty_paragraph]) FillBackground no_line.

(** The shape [add_shape] inserts: fill and outline come from the
    shape's style, none is set on the shape itself. *)
Definition new_autoshape (k : MSO_SHAPE) (l t w h : Z) : shape :=
  Shape (AutoShape k) (Some (Geometry l t w h))
        (TextFrame None [empty_paragraph]) FillInherited no_line.

(** Is this shape the placeholder with key [idx]? *)
Definition is_placeholder (idx : nat) (s : shape) : bool :=
  match sh_kind s with
  | Placeholder i _ => Nat.eqb i idx
  | _ => false
  end.

(** Position of the first shape satisfying [p]. *)
Fixpoint find_index (p : shape -> bool) (l : list shape) : option nat :=
  match l with
  | [] => None
  | s :: l' => if p s then Some O else S <$> find_index p l'
  end.

(** Split a text at line feeds (Python's [text.split("\n")]). *)
Fixpoint split_lines_go (cur : string) (s : string) : list string :=
  match s with
  | EmptyString => [cur]
  | String c s' =>
      if Ascii.eqb c "010"%char
      then cur :: split_lines_go "" s'
      else split_lines_go (cur +:+ String c EmptyString) s'
  end.

Definition split_lines (s : string) : list string := split_lines_go "" s.

(** ["\n".join(l)] *)
Fixpoint join_lines (l : list string) : string :=
  match l with
  | [] => ""
  | [x] => x
  | x :: l' => x +:+ String "010"%char (join_lines l')
  end.

(** [text_frame.text = s]: drop all paragraphs, add one per line. *)
Definition set_frame_text (s : string) (tf : text_frame) : text_frame :=
  TextFrame (word_wrap tf)
            ((fun line => Paragraph line None None 0) <$> split_lines s).

(** [shape.text = s] *)
Definition set_shape_text (s : string) (sh : shape) : shape :=
  Shape (sh_kind sh) (sh_geometry sh) (set_frame_text s (sh_text_frame sh))
        (sh_fill sh) (sh_line sh).

(** [shape.text]: the paragraphs' texts joined by line feeds. *)
Definition shape_text (sh : shape) : string :=
  join_lines (para_text <$> paragraphs (sh_text_frame sh)).

Definition set_shape_word_wrap (b : bool) (sh : shape) : shape :=
  Shape (sh_kind sh) (sh_geometry sh)
        (TextFrame (Some b) (paragraphs (sh_text_frame sh)))
        (sh_fill sh) (sh_line sh).

Definition alter_paragraphs (f : list paragraph -> list paragraph) (sh : shape) : shape :=
  Shape (sh_kind sh) (sh_geometry sh)
        (TextFrame (word_wrap (sh_text_frame sh)) (f (paragraphs (sh_text_frame sh))))
        (sh_fill sh) (sh_line sh).

(** [p.text = s] keeps the paragraph's properties.  (The scripts' texts
    hold no line breaks; the library's conversion of line breaks inside
    a paragraph is not modelled.) *)
Definition set_para_text (s : string) (p : paragraph) : paragraph :=
  Paragraph s (para_font_size p) (para_font_bold p) (para_level p).

Definition set_para_font_size (sz : Z) (p : paragraph) : paragraph :=
  Paragraph (para_text p) (Some sz) (para_font_bold p) (para_level p).

Definition set_para_font_bold (b : bool) (p : paragraph) : paragraph :=
  Paragraph (para_text p) (para_font_size p) (Some b) (para_level p).

Definition set_para_level (n : nat) (p : paragraph) : paragraph :=
  Paragraph (para_text p) (para_font_size p) (para_font_bold p) n.

(** [fill.solid()]: an already solid fill keeps its colour, any other
    fill is replaced by a solid one without colour. *)
Definition solid (f : fill_format) : fill_format :=
  match f with
  | FillSolid c => FillSolid c
  | FillInherited | FillBackground => FillSolid None
  end.

Definition set_shape_fill (f : fill_format) (sh : shape) : shape :=
  Shape (sh_kind sh) (sh_geometry sh) (sh_text_frame sh) f (sh_line sh).

Definition set_shape_line (l : line_format) (sh : shape) : shape :=
  Shape (sh_kind sh) (sh_geometry sh) (sh_text_frame sh) (sh_fill sh) l.

Definition alter_slide_shapes (f : list shape -> list shape) (s : slide) : slide :=
  Slide (slide_layout_name s) (f (slide_shapes s)).

Definition alter_slides (f : list slide -> list slide) (p : presentation) : presentation :=
  Presentation_ (slide_width p) (slide_height p) (slide_layouts p) (f (slides p)).

(** [slide.shapes.title.text], when the slide has a title. *)
Definition title_text (s : slide) : option string :=
  j ← find_index (is_placeholder 0) (slide_shapes s);
  sh ← slide_shapes s !! j;
  Some (shape_text sh).

Definition is_textbox (sh : shape) : bool :=
  match sh_kind sh with
  | TextBox => true
  | _ => false
  end.

Definition lookup_shape (r : shape_ref) (p : presentation) : option shape :=
  s ← slides p !! r.1; slide_shapes s !! r.2.

Definition lookup_para (r : para_ref) (p : presentation) : option paragraph :=
  sh ← lookup_shape r.1 p; paragraphs (sh_text_frame sh) !! r.2.

End Pptx.

(** ** The interpreter state and the monad the scripts run in *)

Module Interp.
Import Py Pptx.

(** What a path holds: a complete package, identified with the document
    description the library's encoder wrote into it, or what a save that
    failed midway left behind. *)
Inductive file :=
| Package (doc : presentation)
| HalfWritten.

(** What a process finds when it starts: whether python-pptx is
    installed and where it fails, the console, the command line, the
    environment variables and the files on disk.

    [stdout_buffer_fault] is what reading [sys.stdout.buffer] raises, if
    it raises: an [AttributeError] when [sys.stdout] has no such
    attribute, which is the case when the process was started without a
    standard output ([sys.stdout] is [None]) or under a host that put a
    stream without binary buffer in its place.

    [save_fails_midway] tells how far a [prs.save] that fails got: the
    library opens the target for writing, which empties it, and then
    writes the package part by part.  A save that cannot open the target
    (missing directory, no permission) fails before the disk is touched;
    one that fails later (disk full, a part that does not serialise) has
    already replaced what was there by a half-written file. *)
Record env := Env {
  pptx_installed : bool;            (* is python-pptx importable *)
  faults : nat -> option exn;       (* the n-th library call raises this *)
  console_encoding : string;        (* encoding of the initial sys.stdout *)
  argv : list string;
  environ : gmap string string;
  initial_files : gmap string file;
  stdout_buffer_fault : option exn; (* sys.stdout.buffer raises this *)
  save_fails_midway : bool          (* a failing save fails after opening the target *)
}.

(** Does [sys.stdout] have a [buffer]? *)
Definition stdout_has_buffer (e : env) : bool :=
  match stdout_buffer_fault e with
  | None => true
  | Some _ => false
  end.

(** The mutable state of a run.  Each script creates exactly one
    [Presentation] object, so the heap holds one. *)
Record world := World {
  heap_prs : option presentation;
  calls : nat;                            (* library calls made so far *)
  stdout_encoding : string;               (* encoding of sys.stdout *)
  stdout : list (string * string);        (* (encoding, line) written *)
  stderr : list stderr_item;
  files : gmap string file
}.

Definition initial_world (e : env) : world :=
  World None 0 (console_encoding e) [] [] (initial_files e).

Definition set_prs (p : presentation) (w : world) : world :=
  World (Some p) (calls w) (stdout_encoding w) (stdout w) (stderr w) (files w).

Definition tick (w : world) : world :=
  World (heap_prs w) (S (calls w)) (stdout_encoding w) (stdout w) (stderr w) (files w).

Definition set_stdout_encoding (enc : string) (w : world) : world :=
  World (heap_prs w) (calls w) enc (stdout w) (stderr w) (files w).

Definition write_stdout (line : string) (w : world) : world :=
  World (heap_prs w) (calls w) (stdout_encoding w)
        (stdout w ++ [(stdout_encoding w, line)]) (stderr w) (files w).

Definition write_stderr (i : stderr_item) (w : world) : world :=
  World (heap_prs w) (calls w) (stdout_encoding w) (stdout w)
        (stderr w ++ [i]) (files w).

Definition write_file (path : string) (f : file) (w : world) : world :=
  World (heap_prs w) (calls w) (stdout_encoding w) (stdout w) (stderr w)
        (<[path := f]> (files w)).

Definition M (A : Type) : Type := env -> world -> result A * world.

Definition ret {A} (a : A) : M A := fun _ w => (Ok a, w).

Definition raise {A} (x : exn) : M A := fun _ w => (Raise x, w).

Definition bind {A B} (m : M A) (k : A -> M B) : M B :=
  fun e w =>
    match m e w with
    | (Ok a, w') => k a e w'
    | (Raise x, w') => (Raise x, w')
    end.

Definition lift {A} (r : result A) : M A :=
  match r with
  | Ok a => ret a
  | Raise x => raise x
  end.

(** One [except Cls [as e]: handler] clause. *)
Record except_clause (A : Type) := Except {
  catches : exn -> bool;
  handler : exn -> M A
}.
Arguments Except {A} catches handler.
Arguments catches {A} _ _.
Arguments handler {A} _ _.

(** The first clause whose class matches handles the exception. *)
Fixpoint dispatch {A} (cs : list (except_clause A)) (x : exn) : M A :=
  match cs with
  | [] => raise x
  | c :: cs' => if catches c x then handler c x else dispatch cs' x
  end.

(** [try: body  except ...: ...] *)
Definition try_except {A} (body : M A) (cs : list (except_clause A)) : M A :=
  fun e w =>
    match body e w with
    | (Ok a, w') => (Ok a, w')
    | (Raise x, w') => dispatch cs x e w'
    end.

(** [print(line)] writes through the current [sys.stdout]; the line is
    recorded with the encoding [sys.stdout] has at that moment.  (In a
    process without standard output the recorded lines are the lines
    the script asked to print: there is no stream that receives them.) *)
Definition print (line : string) : M unit :=
  fun _ w => (Ok tt, write_stdout line w).

(** [traceback.print_exc()] writes the trace of the exception being
    handled to standard error. *)
Definition traceback_print_exc (x : exn) : M unit :=
  fun _ w => (Ok tt, write_stderr (Traceback x) w).

(** [sys.stdout = io.TextIOWrapper(sys.stdout.buffer, encoding=enc)]:
    the right-hand side reads [sys.stdout.buffer] first; when that
    raises, [sys.stdout] stays what it was. *)
Definition rewrap_stdout (enc : string) : M unit :=
  fun e w =>
    match stdout_buffer_fault e with
    | Some x => (Raise x, w)
    | None => (Ok tt, set_stdout_encoding enc w)
    end.

(** Modules of the standard library are always importable; [pptx] and
    its submodules are when python-pptx is installed. *)
Definition importable (e : env) (module : string) : bool :=
  if String.prefix "pptx" module then pptx_installed e else true.

(** [import module] / [from module import names] *)
Definition import (module : string) : M unit :=
  fun e w =>
    if importable e module
    then (Ok tt, w)
    else (Raise (Exn ModuleNotFoundError "No module named 'pptx'"), w).

(** A call into python-pptx that works on objects in memory: the fault
    table may make it raise, and then it has had no effect. *)
Definition library_call {A} (act : world -> result A * world) : M A :=
  fun e w =>
    match faults e (calls w) with
    | Some x => (Raise x, tick w)
    | None => act (tick w)
    end.

(** An action on the presentation object. *)
Definition on_prs {A} (f : presentation -> result (A * presentation))
  : world -> result A * world :=
  fun w =>
    match heap_prs w with
    | None => (Raise (Exn NameError "name 'prs' is not defined"), w)
    | Some p =>
        match f p with
        | Ok (a, p') => (Ok a, set_prs p' w)
        | Raise x => (Raise x, w)
        end
    end.

(** How a process ends: an uncaught exception prints its trace to
    standard error and gives exit status 1, a module body that runs to
    its end gives exit status 0. *)
Record outcome := Outcome { exit_status : Z; final : world }.

Definition run_process (main : M unit) (e : env) : outcome :=
  match main e (initial_world e) with
  | (Ok _, w) => Outcome 0 w
  | (Raise x, w) => Outcome 1 (write_stderr (Traceback x) w)
  end.

(** Total-correctness triple, read off the run: from world [w] under
    environment [e], [m] either returns [a] in a world satisfying
    [Q a], or raises [x] in a world satisfying [E x]. *)
Definition wp {A} (m : M A) (e : env) (w : world)
           (Q : A -> world -> Prop) (E : exn -> world -> Prop) : Prop :=
  match m e w with
  | (Ok a, w') => Q a w'
  | (Raise x, w') => E x w'
  end.

(** Two worlds with the same presentation object and the same number of
    library calls behind them; the output streams, the encoding of
    [sys.stdout] and the files may differ. *)
Definition same_heap (w w' : world) : Prop :=
  heap_prs w = heap_prs w' /\ calls w = calls w'.

(** [m] run under [e] and under [e'] from worlds related by [R] gives
    the same result, in worlds related by [R]. *)
Definition sim (R : world -> world -> Prop) (e e' : env) {A} (m : M A) : Prop :=
  forall w w', R w w' -> (m e w).1 = (m e' w').1 /\ R (m e w).2 (m e' w').2.

(** f-string rendering of an integer *)
Definition str_of_nat (n : nat) : string := pretty n.

(** [needle in hay] on strings *)
Fixpoint contains (needle hay : string) : bool :=
  String.prefix needle hay ||
  match hay with
  | EmptyString => false
  | String _ hay' => contains needle hay'
  end.

End Interp.

Declare Scope py_scope.
Delimit Scope py_scope with py.
Notation "'let*' x ':=' m 'in' k" :=
  (Interp.bind m (fun x => k))
  (at level 10, x name, m at level 100, k at level 200) : py_scope.
Notation "m ';;;' k" :=
  (Interp.bind m (fun _ => k))
  (at level 100, k at level 200, right associativity) : py_scope.

(** ** The library calls the scripts make *)

Module PptxApi.
Import Py Pptx Interp.
Local Open Scope py_scope.

(** The handle of the one [Presentation] object. *)
Definition prs_ref : Type := unit.

Definition dangling {A} : result A :=
  Raise (Exn AttributeError "reference to an object that is not in the presentation").

(** [Presentation()]: a new presentation from the default template. *)
Definition Presentation (tpl : template) : M prs_ref :=
  library_call (fun w =>
    (Ok tt, set_prs (Presentation_ (tpl_slide_width tpl) (tpl_slide_height tpl)
                                   (tpl_layouts tpl) []) w)).

(** [prs.slide_width = v] *)
Definition set_slide_width (prs : prs_ref) (v : Z) : M unit :=
  library_call (on_prs (fun p =>
    Ok (tt, Presentation_ v (slide_height p) (slide_layouts p) (slides p)))).

(** [prs.slide_height = v] *)
Definition set_slide_height (prs : prs_ref) (v : Z) : M unit :=
  library_call (on_prs (fun p =>
    Ok (tt, Presentation_ (slide_width p) v (slide_layouts p) (slides p)))).

(** [prs.slide_layouts[i]] *)
Definition slide_layouts_getitem (prs : prs_ref) (i : nat) : M slide_layout :=
  library_call (on_prs (fun p =>
    match slide_layouts p !! i with
    | Some l => Ok (l, p)
    | None => Raise (Exn IndexError "slide layout index out of range")
    end)).

(** [prs.slides.add_slide(layout)]: the new slide goes to the end. *)
Definition add_slide (prs : prs_ref) (layout : slide_layout) : M slide_ref :=
  library_call (on_prs (fun p =>
    Ok (length (slides p), alter_slides (fun l => l ++ [new_slide layout]) p))).

(** [len(prs.slides)] *)
Definition len_slides (prs : prs_ref) : M nat :=
  library_call (on_prs (fun p => Ok (length (slides p), p))).

(** [slide.shapes.title]: the placeholder with idx 0, or [None]. *)
Definition shapes_title (s : slide_ref) : M (option shape_ref) :=
  library_call (on_prs (fun p =>
    match slides p !! s with
    | Some sl => Ok ((fun j => (s, j)) <$> find_index (is_placeholder 0) (slide_shapes sl), p)
    | None => dangling
    end)).

(** [slide.placeholders[idx]]: a lookup by key, [KeyError] when no
    placeholder has that idx. *)
Definition placeholders_getitem (s : slide_ref) (idx : nat) : M shape_ref :=
  library_call (on_prs (fun p =>
    match slides p !! s with
    | Some sl =>
        match find_index (is_placeholder idx) (slide_shapes sl) with
        | Some j => Ok ((s, j), p)
        | None => Raise (Exn KeyError ("'no placeholder on this slide with idx == " +:+ str_of_nat idx +:+ "'"))
        end
    | None => dangling
    end)).

(** Replace the shape a reference points to. *)
Definition put_shape (r : shape_ref) (sh : shape) (p : presentation) : presentation :=
  alter_slides (alter (alter_slide_shapes (fun l => <[r.2 := sh]> l)) r.1) p.

(** Apply [f] to the shape behind [r]. *)
Definition update_shape (r : shape_ref) (f : shape -> result shape)
  : presentation -> result (unit * presentation) :=
  fun p =>
    match lookup_shape r p with
    | Some sh =>
        match f sh with
        | Ok sh' => Ok (tt, put_shape r sh' p)
        | Raise x => Raise x
        end
    | None => dangling
    end.

(** Apply [f] to the paragraph behind [r]. *)
Definition update_para (r : para_ref) (f : paragraph -> result paragraph)
  : presentation -> result (unit * presentation) :=
  update_shape r.1 (fun sh =>
    match paragraphs (sh_text_frame sh) !! r.2 with
    | Some pa =>
        match f pa with
        | Ok pa' => Ok (alter_paragraphs (fun l => <[r.2 := pa']> l) sh)
        | Raise x => Raise x
        end
    | None => dangling
    end).

(** [shape.text = s], where [shape] may be [None]: setting an attribute
    of [None] raises [AttributeError] before the library is entered. *)
Definition set_text (t : option shape_ref) (s : string) : M unit :=
  match t with
  | None => raise (Exn AttributeError "'NoneType' object has no attribute 'text'")
  | Some r => library_call (on_prs (update_shape r (fun sh => Ok (set_shape_text s sh))))
  end.

(** [slide.shapes.add_textbox(left, top, width, height)] *)
Definition add_textbox (s : slide_ref) (l t w h : Z) : M shape_ref :=
  library_call (on_prs (fun p =>
    match slides p !! s with
    | Some sl =>
        Ok ((s, length (slide_shapes sl)),
            alter_slides (alter (alter_slide_shapes (fun sh => sh ++ [new_textbox l t w h])) s) p)
    | None => dangling
    end)).

(** [slide.shapes.add_shape(kind, left, top, width, height)] *)
Definition add_shape (s : slide_ref) (k : MSO_SHAPE) (l t w h : Z) : M shape_ref :=
  library_call (on_prs (fun p =>
    match slides p !! s with
    | Some sl =>
        Ok ((s, length (slide_shapes sl)),
            alter_slides (alter (alter_slide_shapes (fun sh => sh ++ [new_autoshape k l t w h])) s) p)
    | None => dangling
    end)).

(** [shape.text_frame]: the text frame lives inside the shape, so its
    reference is the shape's. *)
Definition text_frame_of (r : shape_ref) : M shape_ref :=
  library_call (on_prs (fun p =>
    match lookup_shape r p with
    | Some _ => Ok (r, p)
    | None => dangling
    end)).

(** [text_frame.word_wrap = b] *)
Definition set_word_wrap (tf : shape_ref) (b : bool) : M unit :=
  library_call (on_prs (update_shape tf (fun sh => Ok (set_shape_word_wrap b sh)))).

(** [text_frame.paragraphs[i]] *)
Definition paragraphs_getitem (tf : shape_ref) (i : nat) : M para_ref :=
  library_call (on_prs (fun p =>
    match lookup_para (tf, i) p with
    | Some _ => Ok ((tf, i), p)
    | None =>
        match lookup_shape tf p with
        | Some _ => Raise (Exn IndexError "tuple index out of range")
        | None => dangling
        end
    end)).

(** [text_frame.add_paragraph()]: a new empty paragraph at the end. *)
Definition add_paragraph (tf : shape_ref) : M para_ref :=
  library_call (on_prs (fun p =>
    match lookup_shape tf p with
    | Some sh =>
        Ok ((tf, length (paragraphs (sh_text_frame sh))),
            put_shape tf (alter_paragraphs (fun l => l ++ [empty_paragraph]) sh) p)
    | None => dangling
    end)).

(** [p.text = s] *)
Definition set_paragraph_text (r : para_ref) (s : string) : M unit :=
  library_call (on_prs (update_para r (fun pa => Ok (set_para_text s pa)))).

(** [p.font.size = sz] *)
Definition set_font_size (r : para_ref) (sz : Z) : M unit :=
  library_call (on_prs (update_para r (fun pa => Ok (set_para_font_size sz pa)))).

(** [p.font.bold = b] *)
Definition set_font_bold (r : para_ref) (b : bool) : M unit :=
  library_call (on_prs (update_para r (fun pa => Ok (set_para_font_bold b pa)))).

(** [p.level = n]: the library accepts levels 0 to 8. *)
Definition set_level (r : para_ref) (n : nat) : M unit :=
  library_call (on_prs (update_para r (fun pa =>
    if Nat.leb n 8 then Ok (set_para_level n pa)
    else Raise (Exn ValueError "paragraph level must be in range 0 to 8"))))%nat.

(** [shape.fill.solid()] *)
Definition fill_solid (r : shape_ref) : M unit :=
  library_call (on_prs (update_shape r (fun sh =>
    Ok (set_shape_fill (solid (sh_fill sh)) sh)))).

(** [shape.fill.fore_color.rgb = c]: only a solid (or patterned) fill
    has a foreground colour. *)
Definition set_fill_fore_color_rgb (r : shape_ref) (c : rgb) : M unit :=
  library_call (on_prs (update_shape r (fun sh =>
    match sh_fill sh with
    | FillSolid _ => Ok (set_shape_fill (FillSolid (Some c)) sh)
    | FillInherited =>
        Raise (Exn TypeError "fill type _NoneFill has no foreground color, call .solid() or .patterned() first")
    | FillBackground =>
        Raise (Exn TypeError "fill type _NoFill has no foreground color, call .solid() or .patterned() first")
    end))).

(** [shape.line.color.rgb = c]: [line.color] makes the line's fill
    solid when it is not. *)
Definition set_line_color_rgb (r : shape_ref) (c : rgb) : M unit :=
  library_call (on_prs (update_shape r (fun sh =>
    Ok (set_shape_line (LineFormat (FillSolid (Some c)) (line_width (sh_line sh))) sh)))).

(** [shape.line.width = w] *)
Definition set_line_width (r : shape_ref) (w : Z) : M unit :=
  library_call (on_prs (update_shape r (fun sh =>
    Ok (set_shape_line (LineFormat (line_fill (sh_line sh)) (Some w)) sh)))).

(** [prs.save(path)]: the package goes to [path], replacing what was
    there.  The one library call with an effect outside memory: when it
    fails after it opened the target, a half-written file is left at
    [path], whatever was there before. *)
Definition save (prs : prs_ref) (path : string) : M unit :=
  fun e w =>
    match faults e (calls w) with
    | Some x =>
        (Raise x, if save_fails_midway e
                  then write_file path HalfWritten (tick w)
                  else tick w)
    | None =>
        match heap_prs w with
        | Some p => (Ok tt, write_file path (Package p) (tick w))
        | None => (Raise (Exn NameError "name 'prs' is not defined"), tick w)
        end
    end.

(** [Presentation(path)]: what reopening a saved file gives; a
    half-written file is no package. *)
Definition reopen (w : world) (path : string) : option presentation :=
  match files w !! path with
  | Some (Package p) => Some p
  | _ => None
  end.

(** python-pptx's bundled default template: 4:3 page, eleven layouts,
    each with date, footer and slide-number placeholders at idx 10, 11
    and 12. *)
Definition footers : list layout_placeholder :=
  [LayoutPh 10 PH_DATE; LayoutPh 11 PH_FOOTER; LayoutPh 12 PH_SLIDE_NUMBER].

Definition default_template : template :=
  Template 9144000 6858000
    [ SlideLayout "Title Slide"
        ([LayoutPh 0 PH_CENTER_TITLE; LayoutPh 1 PH_SUBTITLE] ++ footers);
      SlideLayout "Title and Content"
        ([LayoutPh 0 PH_TITLE; LayoutPh 1 PH_OBJECT] ++ footers);
      SlideLayout "Section Header"
        ([LayoutPh 0 PH_TITLE; LayoutPh 1 PH_BODY] ++ footers);
      SlideLayout "Two Content"
        ([LayoutPh 0 PH_TITLE; LayoutPh 1 PH_OBJECT; LayoutPh 2 PH_OBJECT] ++ footers);
      SlideLayout "Comparison"
        ([LayoutPh 0 PH_TITLE; LayoutPh 1 PH_BODY; LayoutPh 2 PH_OBJECT;
          LayoutPh 3 PH_BODY; LayoutPh 4 PH_OBJECT] ++ footers);
      SlideLayout "Title Only"
        ([LayoutPh 0 PH_TITLE] ++ footers);
      SlideLayout "Blank" footers;
      SlideLayout "Content with Caption"
        ([LayoutPh 0 PH_TITLE; LayoutPh 1 PH_OBJECT; LayoutPh 2 PH_BODY] ++ footers);
      SlideLayout "Picture with Caption"
        ([LayoutPh 0 PH_TITLE; LayoutPh 1 PH_OTHER; LayoutPh 2 PH_BODY] ++ footers);
      SlideLayout "Title and Vertical Text"
        ([LayoutPh 0 PH_TITLE; LayoutPh 1 PH_BODY] ++ footers);
      SlideLayout "Vertical Title and Text"
        ([LayoutPh 0 PH_TITLE; LayoutPh 1 PH_BODY] ++ footers) ].

End PptxApi.

(** ** scripts/create-test-pptx.py *)

Module CreateTestPptx.
Import Py Pptx Interp PptxApi.
Local Open Scope py_scope.

(** [def create_test_pptx()], lines 16 to 89. *)
Definition create_test_pptx (tpl : template) : M string :=
  let* prs := Presentation tpl in
  set_slide_width prs (Inches 10) ;;;
  set_slide_height prs (Inches 7.5) ;;;
  (* slide 1: title page *)
  let* layout := slide_layouts_getitem prs 0 in
  let* title_slide := add_slide prs layout in
  let* title := shapes_title title_slide in
  let* subtitle := placeholders_getitem title_slide 1 in
  set_text title "PPTX to JSON Conversion Test" ;;;
  set_text (Some subtitle) "End-to-End Integration Test" ;;;
  (* slide 2: several elements *)
  let* layout := slide_layouts_getitem prs 5 in
  let* content_slide := add_slide prs layout in
  let* title_shape := shapes_title content_slide in
  set_text title_shape "Test Elements" ;;;
  (* a text box *)
  let left := Inches 1 in
  let top := Inches 2 in
  let width := Inches 3 in
  let height := Inches 1 in
  let* textbox := add_textbox content_slide left top width height in
  let* text_frame := text_frame_of textbox in
  set_word_wrap text_frame true ;;;
  let* p := paragraphs_getitem text_frame 0 in
  set_paragraph_text p "This is a test text box" ;;;
  set_font_size p (Pt 18) ;;;
  (* a rectangle *)
  let left := Inches 5 in
  let top := Inches 2 in
  let width := Inches 2 in
  let height := Inches 1.5 in
  let* shape := add_shape content_slide RECTANGLE left top width height in
  fill_solid shape ;;;
  let* c := lift (RGBColor 0x70 0xC0 0x00) in
  set_fill_fore_color_rgb shape c ;;;
  let* c := lift (RGBColor 0 0 0) in
  set_line_color_rgb shape c ;;;
  set_line_width shape (Pt 1) ;;;
  (* another text box *)
  let left := Inches 1 in
  let top := Inches 4 in
  let width := Inches 6 in
  let height := Inches 1 in
  let* textbox2 := add_textbox content_slide left top width height in
  let* text_frame2 := text_frame_of textbox2 in
  let* p2 := paragraphs_getitem text_frame2 0 in
  set_paragraph_text p2 "Element 2: Another text box" ;;;
  set_font_size p2 (Pt 14) ;;;
  set_font_bold p2 true ;;;
  (* save the file *)
  let output_path := "tests/fixtures/simple.pptx" in
  save prs output_path ;;;
  print ("[OK] Successfully created test PPTX file: " +:+ output_path) ;;;
  let* n := len_slides prs in
  print ("   Slide count: " +:+ str_of_nat n) ;;;
  let* n := len_slides prs in
  print ("   File size: ~" +:+ str_of_nat n +:+ " slides with basic elements") ;;;
  ret output_path.

(** The two [except] clauses of the main guard, lines 94 to 100. *)
Definition handlers : list (except_clause unit) :=
  [ Except is_ImportError (fun _ =>
      print "[ERROR] Need to install python-pptx" ;;;
      print "   Run: pip install python-pptx");
    Except is_Exception (fun e =>
      print ("[ERROR] Failed to create file: " +:+ exn_msg e) ;;;
      import "traceback" ;;;
      traceback_print_exc e) ].

(** The module body, run with [__name__] bound to [name]. *)
Definition module_body (name : string) (tpl : template) : M unit :=
  import "pptx" ;;;              (* from pptx import Presentation *)
  import "pptx.util" ;;;         (* from pptx.util import Inches, Pt *)
  import "pptx.dml.color" ;;;    (* from pptx.dml.color import RGBColor *)
  import "pptx.enum.shapes" ;;;  (* from pptx.enum.shapes import MSO_SHAPE *)
  import "sys" ;;;
  import "io" ;;;
  rewrap_stdout "utf-8" ;;;
  if String.eqb name "__main__"
  then try_except (create_test_pptx tpl ;;; ret tt) handlers
  else ret tt.

(** [python scripts/create-test-pptx.py] *)
Definition run (tpl : template) (e : env) : outcome :=
  run_process (module_body "__main__" tpl) e.

(** The world in which the main guard calls [create_test_pptx()]. *)
Definition world_at_call (e : env) : world :=
  set_stdout_encoding "utf-8" (initial_world e).

(** The run is successful when python-pptx is importable, line 14 has
    replaced [sys.stdout] and the call [create_test_pptx()] of the main
    guard returns. *)
Definition succeeds (tpl : template) (e : env) : bool :=
  pptx_installed e && stdout_has_buffer e &&
  match create_test_pptx tpl e (world_at_call e) with
  | (Ok _, _) => true
  | (Raise _, _) => false
  end.

End CreateTestPptx.

(** ** tests/fixtures/create_simple_pptx.py *)

Module CreateSimplePptx.
Import Py Pptx Interp PptxApi.
Local Open Scope py_scope.

(** The module body: the script has no function and no [try]. *)
Definition module_body (tpl : template) : M unit :=
  import "pptx" ;;;              (* from pptx import Presentation *)
  import "pptx.util" ;;;         (* from pptx.util import Inches, Pt *)
  let* prs := Presentation tpl in
  set_slide_width prs (Inches 10) ;;;
  set_slide_height prs (Inches 7.5) ;;;
  (* title slide *)
  let* slide_layout := slide_layouts_getitem prs 0 in
  let* slide := add_slide prs slide_layout in
  let* title := shapes_title slide in
  set_text title "测试演示文稿" ;;;
  let* subtitle := placeholders_getitem slide 1 in
  set_text (Some subtitle) "这是一个简单的测试 PPTX" ;;;
  (* content slide *)
  let* bullet_slide_layout := slide_layouts_getitem prs 1 in
  let* slide := add_slide prs bullet_slide_layout in
  let shapes := slide in
  let* title_shape := shapes_title shapes in
  set_text title_shape "主要内容" ;;;
  let left := Inches 1 in
  let top := Inches 2 in
  let width := Inches 8 in
  let height := Inches 4 in
  let* textbox := add_textbox shapes left top width height in
  let* text_frame := text_frame_of textbox in
  set_word_wrap text_frame true ;;;
  (* paragraphs *)
  let* p := paragraphs_getitem text_frame 0 in
  set_paragraph_text p "这是第一行文本" ;;;
  set_font_size p (Pt 18) ;;;
  let* p := add_paragraph text_frame in
  set_paragraph_text p "这是第二行文本" ;;;
  set_font_size p (Pt 18) ;;;
  set_level p 1 ;;;
  let* p := add_paragraph text_frame in
  set_paragraph_text p "这是第三行文本" ;;;
  set_font_size p (Pt 18) ;;;
  (* save the file *)
  save prs "simple.pptx" ;;;
  print "simple.pptx created successfully".

(** [python tests/fixtures/create_simple_pptx.py] *)
Definition run (tpl : template) (e : env) : outcome :=
  run_process (module_body tpl) e.

(** The run is successful when the module body runs to its end. *)
Definition succeeds (tpl : template) (e : env) : bool :=
  match module_body tpl e (initial_world e) with
  | (Ok _, _) => true
  | (Raise _, _) => false
  end.

End CreateSimplePptx.

(** ** Both builders at once, and what they are expected to build *)

Module Builders.
Import Py Pptx Interp PptxApi.

Inductive script :=
| create_test_pptx_py      (* scripts/create-test-pptx.py *)
| create_simple_pptx_py.   (* tests/fixtures/create_simple_pptx.py *)

Definition run (s : script) (tpl : template) (e : env) : outcome :=
  match s with
  | create_test_pptx_py => CreateTestPptx.run tpl e
  | create_simple_pptx_py => CreateSimplePptx.run tpl e
  end.

Definition succeeds (s : script) (tpl : template) (e : env) : bool :=
  match s with
  | create_test_pptx_py => CreateTestPptx.succeeds tpl e
  | create_simple_pptx_py => CreateSimplePptx.succeeds tpl e
  end.

(** The presentation object a run leaves on the heap. *)
Definition document (s : script) (tpl : template) (e : env) : option presentation :=
  heap_prs (final (run s tpl e)).

(** The lines a run wrote to standard output. *)
Definition output_lines (s : script) (tpl : template) (e : env) : list string :=
  snd <$> stdout (final (run s tpl e)).

Definition layout_at (tpl : template) (i : nat) : slide_layout :=
  default (SlideLayout "" []) (tpl_layouts tpl !! i).

(** Set the text of the placeholder with key [idx], if there is one. *)
Definition set_placeholder_text (idx : nat) (t : string) (l : list shape) : list shape :=
  match find_index (is_placeholder idx) l with
  | Some j =>
      match l !! j with
      | Some sh => <[j := set_shape_text t sh]> l
      | None => l
      end
  | None => l
  end.

Definition title_slide_of (layout : slide_layout) (title subtitle : string) : slide :=
  Slide (layout_name layout)
        (set_placeholder_text 1 subtitle
           (set_placeholder_text 0 title (cloned_placeholders layout))).

Definition content_slide_of (layout : slide_layout) (title : string) (added : list shape) : slide :=
  Slide (layout_name layout)
        (set_placeholder_text 0 title (cloned_placeholders layout) ++ added).

Definition text_box (l t w h : Z) (wrap : option bool) (ps : list paragraph) : shape :=
  Shape TextBox (Some (Geometry l t w h)) (TextFrame wrap ps) FillBackground no_line.

(** The rectangle of scripts/create-test-pptx.py, lines 53 to 67. *)
Definition green_rectangle : shape :=
  Shape (AutoShape RECTANGLE)
        (Some (Geometry (5 * 914400) (2 * 914400) (2 * 914400) 1371600))
        (TextFrame None [empty_paragraph])
        (FillSolid (Some (Rgb 0x70 0xC0 0x00)))
        (LineFormat (FillSolid (Some (Rgb 0 0 0))) (Some 12700)).

(** The document scripts/create-test-pptx.py describes. *)
Definition test_document (tpl : template) : presentation :=
  Presentation_ 9144000 6858000 (tpl_layouts tpl)
    [ title_slide_of (layout_at tpl 0)
        "PPTX to JSON Conversion Test" "End-to-End Integration Test";
      content_slide_of (layout_at tpl 5) "Test Elements"
        [ text_box 914400 1828800 2743200 914400 (Some true)
            [Paragraph "This is a test text box" (Some 228600) None 0];
          green_rectangle;
          text_box 914400 3657600 5486400 914400 (Some false)
            [Paragraph "Element 2: Another text box" (Some 177800) (Some true) 0] ] ].

(** The three paragraphs of tests/fixtures/create_simple_pptx.py. *)
Definition simple_paragraphs : list paragraph :=
  [ Paragraph "这是第一行文本" (Some 228600) None 0;
    Paragraph "这是第二行文本" (Some 228600) None 1;
    Paragraph "这是第三行文本" (Some 228600) None 0 ].

(** The document tests/fixtures/create_simple_pptx.py describes. *)
Definition simple_document (tpl : template) : presentation :=
  Presentation_ 9144000 6858000 (tpl_layouts tpl)
    [ title_slide_of (layout_at tpl 0) "测试演示文稿" "这是一个简单的测试 PPTX";
      content_slide_of (layout_at tpl 1) "主要内容"
        [ text_box 914400 1828800 7315200 3657600 (Some true) simple_paragraphs ] ].

Definition described_document (s : script) (tpl : template) : presentation :=
  match s with
  | create_test_pptx_py => test_document tpl
  | create_simple_pptx_py => simple_document tpl
  end.

Definition output_path (s : script) : string :=
  match s with
  | create_test_pptx_py => "tests/fixtures/simple.pptx"
  | create_simple_pptx_py => "simple.pptx"
  end.

Definition title_literal (s : script) : string :=
  match s with
  | create_test_pptx_py => "PPTX to JSON Conversion Test"
  | create_simple_pptx_py => "测试演示文稿"
  end.

(** What a successful run prints. *)
Definition success_lines (s : script) : list string :=
  match s with
  | create_test_pptx_py =>
      [ "[OK] Successfully created test PPTX file: tests/fixtures/simple.pptx";
        "   Slide count: 2";
        "   File size: ~2 slides with basic elements" ]
  | create_simple_pptx_py => [ "simple.pptx created successfully" ]
  end.

(** The two lines of the [except ImportError] clause. *)
Definition missing_dependency_lines : list string :=
  [ "[ERROR] Need to install python-pptx"; "   Run: pip install python-pptx" ].

(** What [import pptx] raises when python-pptx is not installed. *)
Definition no_module_named_pptx : exn :=
  Exn ModuleNotFoundError "No module named 'pptx'".

(** The same environment with other command-line arguments and
    environment variables. *)
Definition with_args (e : env) (args : list string) (vars : gmap string string) : env :=
  Env (pptx_installed e) (faults e) (console_encoding e) args vars (initial_files e)
      (stdout_buffer_fault e) (save_fails_midway e).

(** The same environment on a console with another encoding. *)
Definition with_console_encoding (e : env) (enc : string) : env :=
  Env (pptx_installed e) (faults e) enc (argv e) (environ e) (initial_files e)
      (stdout_buffer_fault e) (save_fails_midway e).

(** Concrete run environments. *)

(** python-pptx installed, no library call fails, a GBK console. *)
Definition quiet_env : env := Env true (fun _ => None) "cp936" [] ∅ ∅ None false.

(** The same with arguments, environment variables and an old file. *)
Definition busy_env : env :=
  Env true (fun _ => None) "cp1252" ["--verbose"; "out.pptx"]
      {[ "PPTX_OUT" := "elsewhere.pptx" ]}
      {[ "simple.pptx" := Package (Presentation_ 1 1 [] []) ]}
      None false.

(** python-pptx is not installed. *)
Definition env_without_pptx : env := Env false (fun _ => None) "cp936" [] ∅ ∅ None false.

(** The library call number [n] raises [x]; if it is the save, it fails
    midway. *)
Definition env_failing_at (n : nat) (x : exn) : env :=
  Env true (fun k => if Nat.eqb k n then Some x else None) "cp936" [] ∅ ∅ None true.

(** What [None.buffer] raises. *)
Definition none_has_no_buffer : exn :=
  Exn AttributeError "'NoneType' object has no attribute 'buffer'".

(** python-pptx installed, no library call fails, no standard output. *)
Definition env_without_stdout : env :=
  Env true (fun _ => None) "cp936" [] ∅ ∅ (Some none_has_no_buffer) false.

(** [prs.save] cannot open its target: library call [n] raises [x]
    before the disk is touched; an old file is at the target of
    tests/fixtures/create_simple_pptx.py. *)
Definition env_save_refused (n : nat) (x : exn) : env :=
  Env true (fun k => if Nat.eqb k n then Some x else None) "cp936" [] ∅
      {[ "simple.pptx" := Package (Presentation_ 1 1 [] []) ]} None false.

Definition permission_denied : exn :=
  Exn OSError "[Errno 13] Permission denied: 'simple.pptx'".

Definition disk_full : exn := Exn OSError "[Errno 28] No space left on device".

Definition lxml_missing : exn := Exn ImportError "cannot import name 'etree' from 'lxml'".

End Builders.

(** ** When the builders succeed, and what they leave when they fail *)

Module Behaviour.
Import Py Pptx Interp PptxApi Builders.

(** Is there, among the placeholders [add_slide] clones from the layout,
    one with key [idx]? *)
Definition has_placeholder (idx : nat) (layout : slide_layout) : bool :=
  match find_index (is_placeholder idx) (cloned_placeholders layout) with
  | Some _ => true
  | None => false
  end.

(** What a script asks of the template: the layouts it indexes
    ([slide_layouts[0]] and [slide_layouts[5]], or [slide_layouts[0]]
    and [slide_layouts[1]]), a title and a placeholder 1 on the first, a
    title on the second. *)
Definition fits (s : script) (tpl : template) : bool :=
  match tpl_layouts tpl !! 0%nat,
        tpl_layouts tpl !! (match s with
                            | create_test_pptx_py => 5%nat
                            | create_simple_pptx_py => 1%nat
                            end) with
  | Some first, Some second =>
      has_placeholder 0 first && has_placeholder 1 first && has_placeholder 0 second
  | _, _ => false
  end.

(** What a script asks of [sys.stdout]: create-test-pptx.py reads its
    buffer on line 14, create_simple_pptx.py only prints. *)
Definition stdout_fits (s : script) (e : env) : bool :=
  match s with
  | create_test_pptx_py => stdout_has_buffer e
  | create_simple_pptx_py => true
  end.

(** The number of library calls of a run that goes through. *)
Definition library_calls (s : script) : nat :=
  match s with
  | create_test_pptx_py => 33%nat
  | create_simple_pptx_py => 27%nat
  end.

(** The call [prs.save(...)], counted from 0. *)
Definition save_call (s : script) : nat :=
  match s with
  | create_test_pptx_py => 30%nat
  | create_simple_pptx_py => 26%nat
  end.

(** None of the first [n] library calls fails. *)
Definition no_fault_before (n : nat) (e : env) : Prop :=
  forall k, (k < n)%nat -> faults e k = None.

(** The first library call that fails is call [k], and it raises [x]. *)
Definition first_fault (e : env) (k : nat) (x : exn) : Prop :=
  no_fault_before k e /\ faults e k = Some x.

(** The success line of scripts/create-test-pptx.py. *)
Definition ok_line : string :=
  "[OK] Successfully created test PPTX file: tests/fixtures/simple.pptx".

(** What [create_test_pptx()] has printed when library call [k] fails:
    nothing up to the save, then the lines of 85 and 86. *)
Definition printed_before (k : nat) : list string :=
  if Nat.leb k 30 then []
  else if Nat.eqb k 31 then [ok_line]
  else [ok_line; "   Slide count: 2"].

(** What the main guard of scripts/create-test-pptx.py prints for the
    exception it caught. *)
Definition handler_lines (x : exn) : list string :=
  if is_ImportError x
  then missing_dependency_lines
  else ["[ERROR] Failed to create file: " +:+ exn_msg x].

(** What it writes to standard error. *)
Definition handler_trace (x : exn) : list stderr_item :=
  if is_ImportError x then [] else [Traceback x].

(** [slide.placeholders[idx].text], when the slide has that placeholder. *)
Definition placeholder_text (idx : nat) (s : slide) : option string :=
  j ← find_index (is_placeholder idx) (slide_shapes s);
  sh ← slide_shapes s !! j;
  Some (shape_text sh).

(** The shapes of a slide that are not placeholders, in z-order. *)
Definition is_placeholder_shape (sh : shape) : bool :=
  match sh_kind sh with
  | Placeholder _ _ => true
  | _ => false
  end.

Definition added_shapes (s : slide) : list shape :=
  List.filter (fun sh => negb (is_placeholder_shape sh)) (slide_shapes s).

(** The files a run leaves when its first failing library call is call
    [k]: before the save they are as they were, after it the complete
    document is at the output path; a save that fails leaves them as
    they were if it could not open its target, and leaves a half-written
    file at the output path if it failed midway. *)
Definition files_after_fault (s : script) (tpl : template) (midway : bool) (k : nat)
           (fs : gmap string file) : gmap string file :=
  if Nat.ltb k (save_call s) then fs
  else if Nat.eqb k (save_call s)
       then (if midway then <[output_path s := HalfWritten]> fs else fs)
       else <[output_path s := Package (described_document s tpl)]> fs.

(** The same environment over other files. *)
Definition with_files (e : env) (fs : gmap string file) : env :=
  Env (pptx_installed e) (faults e) (console_encoding e) (argv e) (environ e) fs
      (stdout_buffer_fault e) (save_fails_midway e).

(** The exception of [None.text = ...]. *)
Definition none_has_no_text : exn :=
  Exn AttributeError "'NoneType' object has no attribute 'text'".

(** A template whose first layout has a subtitle and no title. *)
Definition untitled_template : template :=
  Template 9144000 6858000
    [ SlideLayout "Caption" [LayoutPh 1 PH_SUBTITLE];
      SlideLayout "Title and Content" [LayoutPh 0 PH_TITLE; LayoutPh 1 PH_OBJECT] ].

(** The line each script prints last when it has saved. *)
Definition success_line (s : script) : string :=
  match s with
  | create_test_pptx_py => ok_line
  | create_simple_pptx_py => "simple.pptx created successfully"
  end.

(** The subtitle each script sets on its first slide. *)
Definition subtitle_literal (s : script) : string :=
  match s with
  | create_test_pptx_py => "End-to-End Integration Test"
  | create_simple_pptx_py => "这是一个简单的测试 PPTX"
  end.

(** The title each script sets on its second slide. *)
Definition second_title_literal (s : script) : string :=
  match s with
  | create_test_pptx_py => "Test Elements"
  | create_simple_pptx_py => "主要内容"
  end.

End Behaviour.


(** * Proofs *)

Import Py Pptx Interp PptxApi Builders Behaviour.

Local Arguments cloned_placeholders : simpl never.
Local Arguments set_shape_text : simpl never.
Local Arguments str_of_nat : simpl never.

(** ** Rules for stepping through a script *)

Section Rules.
Context {A B : Type}.
Implicit Types (e : env) (w : world).

Lemma wp_ret (a : A) e w Q E : Q a w -> wp (ret a) e w Q E.
Proof. done. Qed.

Lemma wp_raise (x : exn) e w (Q : A -> world -> Prop) E :
  E x w -> wp (raise x) e w Q E.
Proof. done. Qed.

Lemma wp_bind (m : M A) (k : A -> M B) e w Q E :
  wp m e w (fun a w1 => wp (k a) e w1 Q E) E -> wp (bind m k) e w Q E.
Proof. unfold wp, bind. by destruct (m e w) as [[a|x] w1]. Qed.

Lemma wp_lift (r : result A) e w Q E :
  match r with Ok a => Q a w | Raise x => E x w end -> wp (lift r) e w Q E.
Proof. by destruct r. Qed.

Lemma wp_library_call (act : world -> result A * world) e w Q E :
  (forall x, faults e (calls w) = Some x -> E x (tick w)) ->
  (faults e (calls w) = None ->
   match act (tick w) with (Ok a, w') => Q a w' | (Raise x, w') => E x w' end) ->
  wp (library_call act) e w Q E.
Proof.
  intros Hx Hok. unfold wp, library_call.
  destruct (faults e (calls w)) as [x|]; [by apply Hx | by apply Hok].
Qed.

(** A call that acts on the presentation: whatever it raises, it raises
    in the world it was entered in, one call later. *)
Lemma wp_on_prs (f : presentation -> result (A * presentation)) e w Q E :
  (forall x, E x (tick w)) ->
  (forall p a p', heap_prs w = Some p -> f p = Ok (a, p') -> Q a (set_prs p' (tick w))) ->
  wp (library_call (on_prs f)) e w Q E.
Proof.
  intros Hx Hok. apply wp_library_call; [done | intros _].
  unfold on_prs. change (heap_prs (tick w)) with (heap_prs w).
  destruct (heap_prs w) as [p|] eqn:Hp; [ | done].
  destruct (f p) as [[a p']|x] eqn:Hf; [ | done].
  by apply (Hok p).
Qed.

End Rules.

Lemma wp_print line e w Q E : Q tt (write_stdout line w) -> wp (print line) e w Q E.
Proof. done. Qed.

Lemma wp_import module e w Q E :
  (importable e module = true -> Q tt w) ->
  (importable e module = false -> E (Exn ModuleNotFoundError "No module named 'pptx'") w) ->
  wp (import module) e w Q E.
Proof. intros Hy Hn. unfold wp, import. destruct (importable e module); auto. Qed.

Lemma wp_Presentation tpl e w Q E :
  (forall x, E x (tick w)) ->
  Q tt (set_prs (Presentation_ (tpl_slide_width tpl) (tpl_slide_height tpl)
                               (tpl_layouts tpl) []) (tick w)) ->
  wp (Presentation tpl) e w Q E.
Proof. intros Hx Hok. by apply wp_library_call. Qed.

Lemma wp_rewrap_stdout enc e w Q E :
  (forall x, stdout_buffer_fault e = Some x -> E x w) ->
  (stdout_buffer_fault e = None -> Q tt (set_stdout_encoding enc w)) ->
  wp (rewrap_stdout enc) e w Q E.
Proof.
  intros Hx Hok. unfold wp, rewrap_stdout.
  destruct (stdout_buffer_fault e) as [x|]; [by apply Hx | by apply Hok].
Qed.

(** A save that raises has left the files alone or a half-written file
    at its target. *)
Lemma wp_save prs path e w Q E :
  (forall x, E x (tick w)) ->
  (forall x, E x (write_file path HalfWritten (tick w))) ->
  (forall p, heap_prs w = Some p -> Q tt (write_file path (Package p) (tick w))) ->
  wp (save prs path) e w Q E.
Proof.
  intros Hx Hhalf Hok. unfold wp, save.
  destruct (faults e (calls w)) as [x|].
  - destruct (save_fails_midway e); [apply Hhalf | apply Hx].
  - destruct (heap_prs w) as [p|]; [by apply Hok | apply Hx].
Qed.

Lemma wp_set_text t s e w Q E :
  (forall x, E x w) -> (forall x, E x (tick w)) ->
  (forall r p sh, t = Some r -> heap_prs w = Some p -> lookup_shape r p = Some sh ->
     Q tt (set_prs (put_shape r (set_shape_text s sh) p) (tick w))) ->
  wp (set_text t s) e w Q E.
Proof.
  intros Hx0 Hx Hok. destruct t as [r|]; [ | by apply wp_raise].
  apply wp_on_prs; [done|]. intros p a p' Hp Hf. unfold update_shape in Hf.
  destruct (lookup_shape r p) as [sh|] eqn:Hsh; [ | done].
  injection Hf as <- <-. by eapply Hok.
Qed.

(** ** Lists: the shape a slide got last *)

Lemma lookup_snoc {T} (l : list T) x : (l ++ [x]) !! length l = Some x.
Proof. by apply list_lookup_middle. Qed.

Lemma insert_snoc {T} (l : list T) x y : <[length l := y]> (l ++ [x]) = l ++ [y].
Proof. rewrite insert_app_r_alt; [ | done]. by rewrite Nat.sub_diag. Qed.

Lemma filter_none {T} (p : T -> bool) l :
  Forall (fun x => p x = false) l -> List.filter p l = [].
Proof. induction 1 as [|x l Hx _ IH]; cbn; [done | by rewrite Hx]. Qed.

(** ** Placeholders *)

Lemma find_index_Some p l j :
  find_index p l = Some j -> exists x, l !! j = Some x /\ p x = true.
Proof.
  revert j. induction l as [|y l IH]; intros j; cbn; [done|].
  destruct (p y) eqn:Hy.
  - intros [= <-]. by exists y.
  - destruct (find_index p l) as [k|]; [ | done].
    intros [= <-]. by apply IH.
Qed.

Lemma find_index_insert p l i x y :
  l !! i = Some x -> p y = p x -> find_index p (<[i:=y]> l) = find_index p l.
Proof.
  revert i. induction l as [|z l IH]; intros i; [done|].
  destruct i as [|i]; intros Hi Hp.
  - injection Hi as ->. cbn. by rewrite Hp.
  - change (find_index p (z :: <[i:=y]> l) = find_index p (z :: l)).
    cbn. by rewrite (IH i Hi Hp).
Qed.

Lemma is_placeholder_set_shape_text idx t sh :
  is_placeholder idx (set_shape_text t sh) = is_placeholder idx sh.
Proof. done. Qed.

Lemma is_placeholder_inj i j sh :
  is_placeholder i sh = true -> is_placeholder j sh = true -> i = j.
Proof.
  unfold is_placeholder. destruct (sh_kind sh) as [k ?| |]; try done.
  intros ->%Nat.eqb_eq ->%Nat.eqb_eq. done.
Qed.

Lemma set_placeholder_text_found idx t l j sh :
  find_index (is_placeholder idx) l = Some j -> l !! j = Some sh ->
  set_placeholder_text idx t l = <[j := set_shape_text t sh]> l.
Proof. unfold set_placeholder_text. by intros -> ->. Qed.

Lemma find_index_set_placeholder_text i idx t l :
  find_index (is_placeholder i) (set_placeholder_text idx t l)
  = find_index (is_placeholder i) l.
Proof.
  unfold set_placeholder_text.
  destruct (find_index (is_placeholder idx) l) as [j|]; [ | done].
  destruct (l !! j) as [sh|] eqn:Hj; [ | done].
  by apply (find_index_insert _ _ _ sh).
Qed.

(** create-test-pptx.py looks both placeholders up and then sets both
    texts, create_simple_pptx.py interleaves: the slide is the same. *)
Lemma title_slide_of_found layout title subtitle j k sh sh' :
  find_index (is_placeholder 0) (cloned_placeholders layout) = Some j ->
  cloned_placeholders layout !! j = Some sh ->
  find_index (is_placeholder 1)
    (<[j := set_shape_text title sh]> (cloned_placeholders layout)) = Some k ->
  <[j := set_shape_text title sh]> (cloned_placeholders layout) !! k = Some sh' ->
  title_slide_of layout title subtitle =
  Slide (layout_name layout)
        (<[k := set_shape_text subtitle sh']>
           (<[j := set_shape_text title sh]> (cloned_placeholders layout))).
Proof.
  intros Hj Hsh Hk Hsh'. unfold title_slide_of.
  rewrite (set_placeholder_text_found 0 title _ j sh Hj Hsh).
  by rewrite (set_placeholder_text_found 1 subtitle _ k sh' Hk Hsh').
Qed.

Lemma content_slide_of_found layout title added j sh :
  find_index (is_placeholder 0) (cloned_placeholders layout) = Some j ->
  cloned_placeholders layout !! j = Some sh ->
  content_slide_of layout title added =
  Slide (layout_name layout)
        (<[j := set_shape_text title sh]> (cloned_placeholders layout) ++ added).
Proof.
  intros Hj Hsh. unfold content_slide_of.
  by rewrite (set_placeholder_text_found 0 title _ j sh Hj Hsh).
Qed.

Lemma layout_at_found tpl i l : tpl_layouts tpl !! i = Some l -> layout_at tpl i = l.
Proof. unfold layout_at. by intros ->. Qed.

Lemma cloned_no_textbox layout :
  Forall (fun sh => is_textbox sh = false) (cloned_placeholders layout).
Proof. unfold cloned_placeholders. apply Forall_fmap, Forall_forall. done. Qed.

Lemma set_placeholder_text_no_textbox idx t l :
  Forall (fun sh => is_textbox sh = false) l ->
  Forall (fun sh => is_textbox sh = false) (set_placeholder_text idx t l).
Proof.
  intros Hl. unfold set_placeholder_text.
  destruct (find_index (is_placeholder idx) l) as [j|]; [ | done].
  destruct (l !! j) as [sh|] eqn:Hj; [ | done].
  apply Forall_insert; [done|].
  unfold is_textbox, set_shape_text. cbn.
  by apply (Forall_lookup_1 _ _ _ _ Hl Hj).
Qed.

(** ** Text: what is set is what is read *)

Lemma split_lines_go_nonempty cur s : split_lines_go cur s <> [].
Proof.
  revert cur. induction s as [|ch s IH]; intros cur; cbn; [done|].
  destruct (Ascii.eqb ch "010"); [done | apply IH].
Qed.

Lemma string_app_assoc (a b c : string) : (a +:+ b) +:+ c = a +:+ (b +:+ c).
Proof.
  induction a as [|ch a IH]; [done|].
  change (String ch ((a +:+ b) +:+ c) = String ch (a +:+ (b +:+ c))).
  by rewrite IH.
Qed.

Lemma string_app_empty_r (a : string) : a +:+ "" = a.
Proof.
  induction a as [|ch a IH]; [done|].
  change (String ch (a +:+ "") = String ch a).
  by rewrite IH.
Qed.

Lemma join_split_go cur s : join_lines (split_lines_go cur s) = cur +:+ s.
Proof.
  revert cur. induction s as [|ch s IH]; intros cur.
  - cbn. by rewrite string_app_empty_r.
  - change (split_lines_go cur (String ch s))
      with (if Ascii.eqb ch "010"
            then cur :: split_lines_go "" s
            else split_lines_go (cur +:+ String ch EmptyString) s).
    destruct (Ascii.eqb ch "010") eqn:Hch.
    + apply Ascii.eqb_eq in Hch as ->.
      specialize (IH ""). pose proof (split_lines_go_nonempty "" s) as Hne.
      destruct (split_lines_go "" s) as [|l ls]; [done|].
      cbn [join_lines] in *. by rewrite IH.
    + rewrite IH, string_app_assoc. done.
Qed.

Lemma join_split s : join_lines (split_lines s) = s.
Proof. apply join_split_go. Qed.

Lemma shape_text_set_shape_text t sh : shape_text (set_shape_text t sh) = t.
Proof.
  unfold shape_text, set_shape_text, set_frame_text. cbn.
  rewrite <- list_fmap_compose.
  rewrite (list_fmap_ext _ id (split_lines t)); [ | done].
  rewrite list_fmap_id. apply join_split.
Qed.

(** The title set on a title slide is the title read back, whether or
    not the layout has a subtitle placeholder. *)
Lemma title_text_title_slide_of layout title subtitle :
  is_Some (find_index (is_placeholder 0) (cloned_placeholders layout)) ->
  title_text (title_slide_of layout title subtitle) = Some title.
Proof.
  intros [j Hj]. unfold title_text, title_slide_of. cbn [slide_shapes].
  rewrite !find_index_set_placeholder_text, Hj. cbn.
  destruct (find_index_Some _ _ _ Hj) as (sh & Hsh & Hph).
  rewrite (set_placeholder_text_found 0 title _ j sh Hj Hsh).
  set (l1 := <[j:=set_shape_text title sh]> (cloned_placeholders layout)).
  assert (Hl1 : l1 !! j = Some (set_shape_text title sh)).
  { apply list_lookup_insert_eq. by eapply lookup_lt_Some. }
  unfold set_placeholder_text.
  destruct (find_index (is_placeholder 1) l1) as [k|] eqn:Hk.
  - destruct (find_index_Some _ _ _ Hk) as (sh' & Hsh' & Hph').
    rewrite Hsh'.
    assert (k <> j) as Hne.
    { intros ->. rewrite Hl1 in Hsh'. injection Hsh' as <-.
      rewrite is_placeholder_set_shape_text in Hph'.
      by pose proof (is_placeholder_inj _ _ _ Hph Hph'). }
    rewrite list_lookup_insert_ne by done. rewrite Hl1. cbn.
    by rewrite shape_text_set_shape_text.
  - rewrite Hl1. cbn. by rewrite shape_text_set_shape_text.
Qed.

(** ** Symbolic execution of the scripts *)

Ltac unfold_builders_in t :=
  eval cbv [set_prs tick write_stdout write_stderr write_file set_stdout_encoding
            alter_slides alter_slide_shapes put_shape new_slide new_textbox new_autoshape
            set_shape_word_wrap alter_paragraphs set_para_text set_para_font_size
            set_para_font_bold set_para_level set_shape_fill set_shape_line solid
            update_para update_shape lookup_para lookup_shape dangling] in t.

(* bring the world of the goal to constructor form *)
Ltac norm_state :=
  lazymatch goal with
  | |- wp ?m ?e ?w ?Q ?E =>
      let w1 := unfold_builders_in w in
      let w2 := eval cbn in w1 in
      change (wp m e w2 Q E)
  | |- _ => idtac
  end;
  rewrite ?insert_snoc.

Ltac simp_hyp H :=
  let T := type of H in
  let T1 := unfold_builders_in T in
  change T1 in H;
  cbn in H; rewrite ?lookup_snoc in H; cbn in H.

Ltac case_hyp H :=
  repeat match type of H with
         | context [match ?x with _ => _ end] => destruct x eqn:?
         end;
  try discriminate H.

(* one statement of the script; [exc] proves the postcondition of the
   case where the statement raises *)
Ltac wp_step exc :=
  lazymatch goal with
  | |- wp (bind _ _) _ _ _ _ => apply wp_bind
  | |- wp (ret _) _ _ _ _ => apply wp_ret
  | |- wp (print _) _ _ _ _ => apply wp_print; norm_state
  | |- wp (lift ?r) _ _ _ _ =>
      apply wp_lift; let r' := eval cbv in r in change r with r'; cbv beta iota
  | |- wp (Presentation _) _ _ _ _ =>
      apply wp_Presentation; [intros; cbn; exc | norm_state]
  | |- wp (save _ _) _ _ _ _ =>
      apply wp_save; [intros; cbn; exc | intros; cbn; exc | intros ? [= <-]; norm_state]
  | |- wp (set_text _ _) _ _ _ _ =>
      apply wp_set_text; [intros; cbn; exc | intros; cbn; exc | ];
      let Ht := fresh "Ht" in let Hsh := fresh "Hsh" in
      intros ? ? ? Ht [= <-] Hsh;
      first [ injection Ht as <- | apply fmap_Some in Ht as (? & ? & ->) ];
      simp_hyp Hsh; norm_state
  | |- wp ?m ?e ?w ?Q ?E =>
      let m' := eval red in m in
      change (wp m' e w Q E);
      apply wp_on_prs;
      [ intros; cbn; exc
      | let Hf := fresh "Hf" in
        intros ? ? ? [= <-] Hf; simp_hyp Hf; case_hyp Hf; injection Hf as <- <-; norm_state ]
  end.

(* when a statement raises: the encoding and standard error are as
   before, and what was printed was printed in that encoding *)
Ltac exc_enc :=
  cbn; split_and!;
  [ reflexivity
  | reflexivity
  | first [ exists []; split; [by rewrite app_nil_r | constructor]
          | eexists; split; [rewrite <- ?app_assoc; reflexivity | by repeat constructor] ] ].

(* when a statement raises: nothing was printed *)
Ltac exc_silent := cbn; split; reflexivity.

(** [create_test_pptx()], called in any world: if it returns, it returns
    the path, the presentation on the heap and in the file is
    [test_document], and three lines were printed; if it raises, only
    standard output may have grown. *)
Lemma create_test_pptx_wp tpl e h c enc out err fs :
  wp (CreateTestPptx.create_test_pptx tpl) e (World h c enc out err fs)
     (fun path w' =>
        path = "tests/fixtures/simple.pptx" /\
        w' = World (Some (test_document tpl)) (33 + c) enc
               (out ++ [(enc, "[OK] Successfully created test PPTX file: tests/fixtures/simple.pptx");
                        (enc, "   Slide count: 2");
                        (enc, "   File size: ~2 slides with basic elements")])
               err (<["tests/fixtures/simple.pptx" := Package (test_document tpl)]> fs) /\
        is_Some (find_index (is_placeholder 0) (cloned_placeholders (layout_at tpl 0))))
     (fun _ w' =>
        stdout_encoding w' = enc /\ stderr w' = err /\
        exists l, stdout w' = out ++ l /\ Forall (fun c => c.1 = enc) l).
Proof.
  unfold CreateTestPptx.create_test_pptx.
  repeat wp_step exc_enc.
  unfold test_document.
  erewrite !layout_at_found by eassumption.
  erewrite title_slide_of_found; try eassumption.
  2:{ erewrite find_index_insert; try eassumption. done. }
  erewrite content_slide_of_found by eassumption.
  rewrite <- !app_assoc. split_and!; [done | | by eauto].
  reflexivity.
Qed.

(** The module body of create_simple_pptx.py: if it runs to its end,
    python-pptx was importable, the presentation on the heap and in the
    file is [simple_document] and one line was printed; if it raises,
    nothing was printed. *)
Lemma module_body_wp tpl e h c enc out err fs :
  wp (CreateSimplePptx.module_body tpl) e (World h c enc out err fs)
     (fun _ w' =>
        pptx_installed e = true /\
        w' = World (Some (simple_document tpl)) (27 + c) enc
               (out ++ [(enc, "simple.pptx created successfully")])
               err (<["simple.pptx" := Package (simple_document tpl)]> fs) /\
        is_Some (find_index (is_placeholder 0) (cloned_placeholders (layout_at tpl 0))))
     (fun _ w' => stdout w' = out /\ stderr w' = err).
Proof.
  unfold CreateSimplePptx.module_body.
  apply wp_bind, wp_import; [intros Hpptx | done].
  apply wp_bind, wp_import; [intros _ | done].
  repeat wp_step exc_silent.
  unfold simple_document.
  erewrite !layout_at_found by eassumption.
  erewrite title_slide_of_found by eassumption.
  erewrite content_slide_of_found by eassumption.
  split_and!; [done | | by eauto].
  reflexivity.
Qed.

(** ** The two processes *)

(** With python-pptx installed and [sys.stdout] replaced,
    create-test-pptx.py ends with status 0 whatever [create_test_pptx()]
    does. *)
Lemma create_test_pptx_py_run tpl e :
  pptx_installed e = true ->
  stdout_has_buffer e = true ->
  CreateTestPptx.run tpl e =
  match CreateTestPptx.create_test_pptx tpl e (CreateTestPptx.world_at_call e) with
  | (Ok _, w') => Outcome 0 w'
  | (Raise x, w') =>
      if is_ImportError x
      then Outcome 0 (write_stdout "   Run: pip install python-pptx"
                        (write_stdout "[ERROR] Need to install python-pptx" w'))
      else Outcome 0 (write_stderr (Traceback x)
                        (write_stdout ("[ERROR] Failed to create file: " +:+ exn_msg x) w'))
  end.
Proof.
  intros Hpptx Hbuf. unfold stdout_has_buffer in Hbuf.
  unfold CreateTestPptx.run, run_process, CreateTestPptx.module_body, bind, import, importable,
    rewrap_stdout.
  cbn [String.prefix Ascii.eqb Bool.eqb String.eqb]. rewrite Hpptx.
  destruct (stdout_buffer_fault e) as [x|]; [discriminate Hbuf|]. cbn.
  unfold try_except, bind.
  change (set_stdout_encoding "utf-8" (initial_world e)) with (CreateTestPptx.world_at_call e).
  destruct (CreateTestPptx.create_test_pptx tpl e (CreateTestPptx.world_at_call e)) as [[path|x] w'];
    [done|].
  cbn. destruct (is_ImportError x); [done|].
  cbn. unfold bind, import, importable. cbn. done.
Qed.

Lemma create_test_pptx_py_run_no_pptx tpl e :
  pptx_installed e = false ->
  CreateTestPptx.run tpl e =
  Outcome 1 (write_stderr (Traceback no_module_named_pptx) (initial_world e)).
Proof.
  intros Hpptx.
  unfold CreateTestPptx.run, run_process, CreateTestPptx.module_body, bind, import, importable.
  cbn [String.prefix Ascii.eqb Bool.eqb]. by rewrite Hpptx.
Qed.

(** Line 14 stands before the [try] as well: when [sys.stdout] has no
    buffer, the run ends there. *)
Lemma create_test_pptx_py_run_no_buffer tpl e x :
  pptx_installed e = true ->
  stdout_buffer_fault e = Some x ->
  CreateTestPptx.run tpl e = Outcome 1 (write_stderr (Traceback x) (initial_world e)).
Proof.
  intros Hpptx Hx.
  unfold CreateTestPptx.run, run_process, CreateTestPptx.module_body, bind, import, importable,
    rewrap_stdout.
  cbn [String.prefix Ascii.eqb Bool.eqb]. by rewrite Hpptx, Hx.
Qed.

Lemma create_simple_pptx_py_run_no_pptx tpl e :
  pptx_installed e = false ->
  CreateSimplePptx.run tpl e =
  Outcome 1 (write_stderr (Traceback no_module_named_pptx) (initial_world e)).
Proof.
  intros Hpptx.
  unfold CreateSimplePptx.run, run_process, CreateSimplePptx.module_body, bind, import, importable.
  cbn [String.prefix Ascii.eqb Bool.eqb]. by rewrite Hpptx.
Qed.

Lemma create_test_pptx_py_success tpl e :
  CreateTestPptx.succeeds tpl e = true ->
  CreateTestPptx.create_test_pptx tpl e (CreateTestPptx.world_at_call e) =
    (Ok "tests/fixtures/simple.pptx", final (CreateTestPptx.run tpl e)) /\
  final (CreateTestPptx.run tpl e) =
    World (Some (test_document tpl)) 33 "utf-8"
          ((fun l => ("utf-8", l)) <$> success_lines create_test_pptx_py) []
          (<["tests/fixtures/simple.pptx" := Package (test_document tpl)]> (initial_files e)) /\
  is_Some (find_index (is_placeholder 0) (cloned_placeholders (layout_at tpl 0))).
Proof.
  unfold CreateTestPptx.succeeds. intros [[Hpptx Hbuf]%andb_prop Hok]%andb_prop.
  rewrite (create_test_pptx_py_run tpl e Hpptx Hbuf).
  pose proof (create_test_pptx_wp tpl e None 0 "utf-8" [] [] (initial_files e)) as Hwp.
  unfold wp in Hwp.
  change (World None 0 "utf-8" [] [] (initial_files e)) with (CreateTestPptx.world_at_call e) in Hwp.
  destruct (CreateTestPptx.create_test_pptx tpl e (CreateTestPptx.world_at_call e)) as [[path|x] w'];
    [ | done].
  destruct Hwp as (-> & -> & Hph). done.
Qed.

Lemma create_simple_pptx_py_success tpl e :
  CreateSimplePptx.succeeds tpl e = true ->
  pptx_installed e = true /\
  final (CreateSimplePptx.run tpl e) =
    World (Some (simple_document tpl)) 27 (console_encoding e)
          ((fun l => (console_encoding e, l)) <$> success_lines create_simple_pptx_py) []
          (<["simple.pptx" := Package (simple_document tpl)]> (initial_files e)) /\
  is_Some (find_index (is_placeholder 0) (cloned_placeholders (layout_at tpl 0))).
Proof.
  unfold CreateSimplePptx.succeeds, CreateSimplePptx.run, run_process. intros Hok.
  pose proof (module_body_wp tpl e None 0 (console_encoding e) [] [] (initial_files e)) as Hwp.
  unfold wp in Hwp.
  change (World None 0 (console_encoding e) [] [] (initial_files e)) with (initial_world e) in Hwp.
  destruct (CreateSimplePptx.module_body tpl e (initial_world e)) as [[u|x] w']; [ | done].
  destruct Hwp as (Hpptx & -> & Hph). done.
Qed.

(** Both builders: the world a successful run ends in. *)
Lemma success_final s tpl e :
  succeeds s tpl e = true ->
  let enc := match s with
             | create_test_pptx_py => "utf-8"
             | create_simple_pptx_py => console_encoding e
             end in
  heap_prs (final (run s tpl e)) = Some (described_document s tpl) /\
  stdout (final (run s tpl e)) = (fun l => (enc, l)) <$> success_lines s /\
  stderr (final (run s tpl e)) = [] /\
  files (final (run s tpl e))
    = <[output_path s := Package (described_document s tpl)]> (initial_files e) /\
  is_Some (find_index (is_placeholder 0) (cloned_placeholders (layout_at tpl 0))).
Proof.
  destruct s; cbn [succeeds run described_document output_path]; intros Hs.
  - destruct (create_test_pptx_py_success tpl e Hs) as (_ & -> & Hph). done.
  - destruct (create_simple_pptx_py_success tpl e Hs) as (_ & -> & Hph). done.
Qed.

(** A successful run ends with exit status 0. *)
Lemma success_exit_status s tpl e :
  succeeds s tpl e = true -> exit_status (run s tpl e) = 0.
Proof.
  destruct s; cbn [succeeds run].
  - intros Hs. pose proof Hs as [[Hpptx Hbuf]%andb_prop _]%andb_prop.
    destruct (create_test_pptx_py_success tpl e Hs) as (Hrun & _).
    rewrite (create_test_pptx_py_run tpl e Hpptx Hbuf) in *. by rewrite Hrun.
  - unfold CreateSimplePptx.succeeds, CreateSimplePptx.run, run_process.
    by destruct (CreateSimplePptx.module_body tpl e (initial_world e)) as [[u|x] w'].
Qed.

(** When [create_test_pptx()] raises, [sys.stdout] is still the UTF-8
    wrapper and nothing went to standard error. *)
Lemma create_test_pptx_failure tpl e x w' :
  CreateTestPptx.create_test_pptx tpl e (CreateTestPptx.world_at_call e) = (Raise x, w') ->
  stdout_encoding w' = "utf-8" /\ stderr w' = [] /\
  Forall (fun c => c.1 = "utf-8") (stdout w').
Proof.
  intros Hr.
  pose proof (create_test_pptx_wp tpl e None 0 "utf-8" [] [] (initial_files e)) as Hwp.
  unfold wp in Hwp.
  change (World None 0 "utf-8" [] [] (initial_files e)) with (CreateTestPptx.world_at_call e) in Hwp.
  rewrite Hr in Hwp. destruct Hwp as (? & ? & l & -> & ?). done.
Qed.

(** When the body of create_simple_pptx.py raises, nothing was printed. *)
Lemma module_body_failure tpl e x w' :
  CreateSimplePptx.module_body tpl e (initial_world e) = (Raise x, w') ->
  stdout w' = [] /\ stderr w' = [].
Proof.
  intros Hr.
  pose proof (module_body_wp tpl e None 0 (console_encoding e) [] [] (initial_files e)) as Hwp.
  unfold wp in Hwp.
  change (World None 0 (console_encoding e) [] [] (initial_files e)) with (initial_world e) in Hwp.
  by rewrite Hr in Hwp.
Qed.

(** ** What a run depends on *)

(** Two runs are compared through a relation [R] on worlds that the
    world updates preserve and that forces the same presentation object
    and the same count of library calls.  Equality is such a relation,
    and so is [same_heap]. *)
Section Simulation.
Variable R : world -> world -> Prop.
Hypothesis R_same_heap : forall w w', R w w' -> same_heap w w'.
Hypothesis R_tick : forall w w', R w w' -> R (tick w) (tick w').
Hypothesis R_set_prs : forall p w w', R w w' -> R (set_prs p w) (set_prs p w').
Hypothesis R_write_stdout :
  forall l w w', R w w' -> R (write_stdout l w) (write_stdout l w').
Hypothesis R_write_stderr :
  forall i w w', R w w' -> R (write_stderr i w) (write_stderr i w').
Hypothesis R_write_file :
  forall path f w w', R w w' -> R (write_file path f w) (write_file path f w').
Hypothesis R_set_stdout_encoding :
  forall enc w w', R w w' -> R (set_stdout_encoding enc w) (set_stdout_encoding enc w').

Variables e e' : env.
Hypothesis same_pptx : pptx_installed e = pptx_installed e'.
Hypothesis same_faults : forall n, faults e n = faults e' n.
Hypothesis same_stdout_buffer : stdout_buffer_fault e = stdout_buffer_fault e'.
Hypothesis same_save : save_fails_midway e = save_fails_midway e'.

Lemma sim_ret {A} (a : A) : sim R e e' (ret a).
Proof. by intros w w' Hw. Qed.

Lemma sim_raise {A} (x : exn) : sim R e e' (raise (A:=A) x).
Proof. by intros w w' Hw. Qed.

Lemma sim_lift {A} (r : result A) : sim R e e' (lift r).
Proof. destruct r; [apply sim_ret | apply sim_raise]. Qed.

Lemma sim_print line : sim R e e' (print line).
Proof. intros w w' Hw. split; [done | by apply R_write_stdout]. Qed.

Lemma sim_traceback_print_exc x : sim R e e' (traceback_print_exc x).
Proof. intros w w' Hw. split; [done | by apply R_write_stderr]. Qed.

Lemma sim_rewrap_stdout enc : sim R e e' (rewrap_stdout enc).
Proof.
  intros w w' Hw. unfold rewrap_stdout. rewrite <- same_stdout_buffer.
  destruct (stdout_buffer_fault e); [done|].
  split; [done | by apply R_set_stdout_encoding].
Qed.

Lemma sim_import module : sim R e e' (import module).
Proof.
  intros w w' Hw. unfold import, importable. rewrite same_pptx.
  by destruct (if String.prefix "pptx" module then pptx_installed e' else true).
Qed.

Lemma sim_bind {A B} (m : M A) (k : A -> M B) :
  sim R e e' m -> (forall a, sim R e e' (k a)) -> sim R e e' (bind m k).
Proof.
  intros Hm Hk w w' Hw. unfold bind.
  destruct (Hm w w' Hw) as (Hr & Hw1).
  destruct (m e w) as [[a|x] w1], (m e' w') as [[a'|x'] w1']; cbn in Hr, Hw1; try done.
  - injection Hr as <-. by apply Hk.
  - by injection Hr as <-.
Qed.

(** A library call sees the fault table at the call count and the
    presentation object, and nothing else. *)
Lemma sim_on_prs {A} (f : presentation -> result (A * presentation)) :
  sim R e e' (library_call (on_prs f)).
Proof.
  intros w w' Hw. destruct (R_same_heap w w' Hw) as [Hh Hc].
  pose proof (R_tick w w' Hw) as Ht.
  unfold library_call, on_prs.
  change (heap_prs (tick w)) with (heap_prs w).
  change (heap_prs (tick w')) with (heap_prs w').
  rewrite <- Hc, <- same_faults, <- Hh.
  destruct (faults e (calls w)) as [x|]; [done|].
  destruct (heap_prs w) as [p|]; [ | done].
  destruct (f p) as [[a p']|x]; [ | done].
  split; [done | by apply R_set_prs].
Qed.

Lemma sim_Presentation tpl : sim R e e' (Presentation tpl).
Proof.
  intros w w' Hw. destruct (R_same_heap w w' Hw) as [Hh Hc].
  pose proof (R_tick w w' Hw) as Ht.
  unfold Presentation, library_call. rewrite <- Hc, <- same_faults.
  destruct (faults e (calls w)) as [x|]; [done|].
  split; [done | by apply R_set_prs].
Qed.

Lemma sim_save prs path : sim R e e' (save prs path).
Proof.
  intros w w' Hw. destruct (R_same_heap w w' Hw) as [Hh Hc].
  pose proof (R_tick w w' Hw) as Ht.
  unfold save.
  rewrite <- Hc, <- same_faults, <- Hh, <- same_save.
  destruct (faults e (calls w)) as [x|].
  - destruct (save_fails_midway e); [ | done].
    split; [done | by apply R_write_file].
  - destruct (heap_prs w) as [p|]; [ | done].
    split; [done | by apply R_write_file].
Qed.

Lemma sim_set_text t s : sim R e e' (set_text t s).
Proof. destruct t; [apply sim_on_prs | apply sim_raise]. Qed.

Lemma sim_dispatch {A} (cs : list (except_clause A)) x :
  Forall (fun c => forall y, sim R e e' (handler c y)) cs -> sim R e e' (dispatch cs x).
Proof.
  induction 1 as [|c cs Hc _ IH]; [apply sim_raise|].
  cbn. destruct (catches c x); [apply Hc | apply IH].
Qed.

Lemma sim_try_except {A} (body : M A) cs :
  sim R e e' body -> Forall (fun c => forall y, sim R e e' (handler c y)) cs ->
  sim R e e' (try_except body cs).
Proof.
  intros Hb Hcs w w' Hw. unfold try_except.
  destruct (Hb w w' Hw) as (Hr & Hw1).
  destruct (body e w) as [[a|x] w1], (body e' w') as [[a'|x'] w1']; cbn in Hr, Hw1; try done.
  injection Hr as <-. by apply sim_dispatch.
Qed.

Ltac sim_step :=
  first
    [ apply sim_bind; [ | intros ? ]
    | apply sim_ret
    | apply sim_print
    | apply sim_lift
    | apply sim_import
    | apply sim_rewrap_stdout
    | apply sim_traceback_print_exc
    | apply sim_Presentation
    | apply sim_save
    | apply sim_set_text
    | apply sim_on_prs
    | apply sim_try_except ].

Lemma create_test_pptx_sim tpl : sim R e e' (CreateTestPptx.create_test_pptx tpl).
Proof. unfold CreateTestPptx.create_test_pptx. repeat sim_step. Qed.

Lemma create_test_pptx_py_sim tpl :
  sim R e e' (CreateTestPptx.module_body "__main__" tpl).
Proof.
  unfold CreateTestPptx.module_body. cbn [String.eqb Ascii.eqb Bool.eqb].
  repeat sim_step.
  unfold CreateTestPptx.handlers.
  repeat (apply List.Forall_cons; [cbn; intros y; repeat sim_step | ]).
  apply List.Forall_nil.
Qed.

Lemma create_simple_pptx_py_sim tpl :
  sim R e e' (CreateSimplePptx.module_body tpl).
Proof. unfold CreateSimplePptx.module_body. repeat sim_step. Qed.

(** The two processes end alike. *)
Lemma run_sim s tpl :
  R (initial_world e) (initial_world e') ->
  exit_status (run s tpl e) = exit_status (run s tpl e') /\
  R (final (run s tpl e)) (final (run s tpl e')).
Proof.
  intros Hw. destruct s; cbn [run];
    unfold CreateTestPptx.run, CreateSimplePptx.run, run_process.
  - destruct (create_test_pptx_py_sim tpl _ _ Hw) as (Hr & Hw').
    destruct (CreateTestPptx.module_body "__main__" tpl e (initial_world e)) as [[u|x] w],
      (CreateTestPptx.module_body "__main__" tpl e' (initial_world e')) as [[u'|x'] w'];
      cbn in *; try done.
    injection Hr as <-. split; [done | by apply R_write_stderr].
  - destruct (create_simple_pptx_py_sim tpl _ _ Hw) as (Hr & Hw').
    destruct (CreateSimplePptx.module_body tpl e (initial_world e)) as [[u|x] w],
      (CreateSimplePptx.module_body tpl e' (initial_world e')) as [[u'|x'] w'];
      cbn in *; try done.
    injection Hr as <-. split; [done | by apply R_write_stderr].
Qed.

End Simulation.

(** The command-line arguments and the environment variables are not
    read: replacing them changes nothing in a run. *)
Lemma run_ignores_arguments s tpl e args vars :
  run s tpl (with_args e args vars) = run s tpl e.
Proof.
  destruct (run_sim eq) with (e := with_args e args vars) (e' := e) (s := s) (tpl := tpl)
    as (Hexit & Hfinal); try (by intros; subst); try done.
  destruct (run s tpl (with_args e args vars)), (run s tpl e). cbn in *. congruence.
Qed.

(** [create_test_pptx()] does not see the console encoding. *)
Lemma create_test_pptx_ignores_console tpl e enc w :
  CreateTestPptx.create_test_pptx tpl (with_console_encoding e enc) w
  = CreateTestPptx.create_test_pptx tpl e w.
Proof.
  destruct (create_test_pptx_sim eq) with (e := with_console_encoding e enc) (e' := e)
                                          (tpl := tpl) (w := w) (w' := w)
    as (Hr & Hw); try (by intros; subst); try done.
  destruct (CreateTestPptx.create_test_pptx tpl (with_console_encoding e enc) w),
    (CreateTestPptx.create_test_pptx tpl e w).
  cbn in *. congruence.
Qed.

(** The presentation a run builds and its exit status depend on the
    library (is it installed, which of its calls fail and how) and on
    whether [sys.stdout] has a buffer, not on the console encoding, the
    files present, the arguments or the environment variables. *)
Lemma document_depends_on_library_only s tpl e e' :
  pptx_installed e = pptx_installed e' ->
  (forall n, faults e n = faults e' n) ->
  stdout_buffer_fault e = stdout_buffer_fault e' ->
  save_fails_midway e = save_fails_midway e' ->
  document s tpl e = document s tpl e' /\
  exit_status (run s tpl e) = exit_status (run s tpl e').
Proof.
  intros Hp Hf Hb Hm.
  destruct (run_sim same_heap) with (e := e) (e' := e') (s := s) (tpl := tpl)
    as (Hexit & Hheap & _); try done;
    try (by intros; unfold same_heap in *; cbn; intuition congruence).
Qed.

(** * The claims *)

(** ** C1: a missing python-pptx *)

(** C1, as stated, fails: with python-pptx not installed,
    tests/fixtures/create_simple_pptx.py prints no missing-dependency
    message and ends with exit status 1, not 0. *)
Lemma missing_dependency_simple_script_crashes :
  pptx_installed env_without_pptx = false /\
  exit_status (run create_simple_pptx_py default_template env_without_pptx) = 1 /\
  output_lines create_simple_pptx_py default_template env_without_pptx = [].
Proof. vm_compute. done. Qed.

(** C1, amended.  If python-pptx is not installed,
    tests/fixtures/create_simple_pptx.py prints nothing on standard
    output and ends on the uncaught import error: its trace on standard
    error, exit status 1.  In scripts/create-test-pptx.py an ImportError
    raised while [create_test_pptx()] runs is caught by the main guard,
    which prints the missing-dependency message with its install
    instructions; the process ends with exit status 0.  (The call is
    reached when lines 6 to 14 went through: python-pptx importable,
    [sys.stdout] replaced.) *)
Theorem missing_dependency_handling :
  (forall tpl e,
     pptx_installed e = false ->
     exit_status (run create_simple_pptx_py tpl e) = 1 /\
     output_lines create_simple_pptx_py tpl e = [] /\
     stderr (final (run create_simple_pptx_py tpl e)) = [Traceback no_module_named_pptx]) /\
  (forall tpl e x w',
     pptx_installed e = true ->
     stdout_has_buffer e = true ->
     CreateTestPptx.create_test_pptx tpl e (CreateTestPptx.world_at_call e) = (Raise x, w') ->
     is_ImportError x = true ->
     exit_status (run create_test_pptx_py tpl e) = 0 /\
     stdout (final (run create_test_pptx_py tpl e)) =
       stdout w' ++ ((fun l => ("utf-8", l)) <$> missing_dependency_lines) /\
     stderr (final (run create_test_pptx_py tpl e)) = []).
Proof.
  split.
  - intros tpl e Hpptx. unfold output_lines. cbn [run].
    by rewrite (create_simple_pptx_py_run_no_pptx tpl e Hpptx).
  - intros tpl e x w' Hpptx Hbuf Hr Hx. cbn [run].
    rewrite (create_test_pptx_py_run tpl e Hpptx Hbuf), Hr, Hx.
    destruct (create_test_pptx_failure tpl e x w' Hr) as (Henc & Herr & _).
    cbn. rewrite Henc, Herr, <- app_assoc. done.
Qed.

(** C1, amended, at two runs: create_simple_pptx.py without python-pptx,
    and create-test-pptx.py where the fifth library call ([add_slide])
    raises an import error. *)
Lemma missing_dependency_handling_witness :
  (exit_status (run create_simple_pptx_py default_template env_without_pptx) = 1 /\
   output_lines create_simple_pptx_py default_template env_without_pptx = [] /\
   stderr (final (run create_simple_pptx_py default_template env_without_pptx))
     = [Traceback no_module_named_pptx]) /\
  (exit_status (run create_test_pptx_py default_template (env_failing_at 4 lxml_missing)) = 0 /\
   stdout (final (run create_test_pptx_py default_template (env_failing_at 4 lxml_missing))) =
     stdout (CreateTestPptx.create_test_pptx default_template (env_failing_at 4 lxml_missing)
               (CreateTestPptx.world_at_call (env_failing_at 4 lxml_missing))).2
     ++ ((fun l => ("utf-8", l)) <$> missing_dependency_lines) /\
   stderr (final (run create_test_pptx_py default_template (env_failing_at 4 lxml_missing))) = []).
Proof.
  split.
  - apply (proj1 missing_dependency_handling default_template env_without_pptx).
    reflexivity.
  - apply (proj2 missing_dependency_handling default_template (env_failing_at 4 lxml_missing)
             lxml_missing).
    + reflexivity.
    + reflexivity.
    + vm_compute. reflexivity.
    + reflexivity.
Defined.

(** In scripts/create-test-pptx.py the imports of lines 6 to 9 stand
    before the [try] of line 92: when python-pptx is not installed the
    [except ImportError] clause is never reached. *)
Lemma create_test_pptx_py_import_is_outside_try tpl e :
  pptx_installed e = false ->
  exit_status (run create_test_pptx_py tpl e) = 1 /\
  output_lines create_test_pptx_py tpl e = [] /\
  stderr (final (run create_test_pptx_py tpl e)) = [Traceback no_module_named_pptx].
Proof.
  intros Hpptx. unfold output_lines. cbn [run].
  by rewrite (create_test_pptx_py_run_no_pptx tpl e Hpptx).
Qed.

(** Line 14 stands before the [try] too: when [sys.stdout] has no
    buffer the run ends there, with python-pptx installed, before any
    library call and before the first [print]. *)
Lemma create_test_pptx_py_rewrap_is_outside_try tpl e x :
  pptx_installed e = true ->
  stdout_buffer_fault e = Some x ->
  exit_status (run create_test_pptx_py tpl e) = 1 /\
  output_lines create_test_pptx_py tpl e = [] /\
  stderr (final (run create_test_pptx_py tpl e)) = [Traceback x] /\
  calls (final (run create_test_pptx_py tpl e)) = 0%nat /\
  files (final (run create_test_pptx_py tpl e)) = initial_files e.
Proof.
  intros Hpptx Hx. unfold output_lines. cbn [run].
  by rewrite (create_test_pptx_py_run_no_buffer tpl e x Hpptx Hx).
Qed.

(** ** C2: any other failure *)

(** C2, as stated, fails: when [prs.save] raises an OSError in
    tests/fixtures/create_simple_pptx.py, nothing catches it; no failure
    message is printed and the exit status is 1. *)
Lemma save_failure_simple_script_crashes :
  is_ImportError disk_full = false /\
  exit_status (run create_simple_pptx_py default_template (env_failing_at 26 disk_full)) = 1 /\
  output_lines create_simple_pptx_py default_template (env_failing_at 26 disk_full) = [] /\
  stderr (final (run create_simple_pptx_py default_template (env_failing_at 26 disk_full)))
    = [Traceback disk_full].
Proof. vm_compute. done. Qed.

(** C2, amended.  scripts/create-test-pptx.py catches every exception
    other than an ImportError that [create_test_pptx()] raises, prints
    the generic failure message with the error's message, prints the
    trace to standard error, and ends with exit status 0.  (The call is
    reached when lines 6 to 14 went through: python-pptx importable,
    [sys.stdout] replaced.)
    tests/fixtures/create_simple_pptx.py catches nothing: an exception
    raised by its body ends the process with exit status 1, the trace on
    standard error and nothing on standard output. *)
Theorem general_failure_handling :
  (forall tpl e x w',
     pptx_installed e = true ->
     stdout_has_buffer e = true ->
     CreateTestPptx.create_test_pptx tpl e (CreateTestPptx.world_at_call e) = (Raise x, w') ->
     is_ImportError x = false ->
     exit_status (run create_test_pptx_py tpl e) = 0 /\
     stdout (final (run create_test_pptx_py tpl e)) =
       stdout w' ++ [("utf-8", "[ERROR] Failed to create file: " +:+ exn_msg x)] /\
     stderr (final (run create_test_pptx_py tpl e)) = [Traceback x]) /\
  (forall tpl e x w',
     CreateSimplePptx.module_body tpl e (initial_world e) = (Raise x, w') ->
     exit_status (run create_simple_pptx_py tpl e) = 1 /\
     stdout (final (run create_simple_pptx_py tpl e)) = [] /\
     stderr (final (run create_simple_pptx_py tpl e)) = [Traceback x]).
Proof.
  split.
  - intros tpl e x w' Hpptx Hbuf Hr Hx. cbn [run].
    rewrite (create_test_pptx_py_run tpl e Hpptx Hbuf), Hr, Hx.
    destruct (create_test_pptx_failure tpl e x w' Hr) as (Henc & Herr & _).
    cbn. by rewrite Henc, Herr.
  - intros tpl e x w' Hr. cbn [run]. unfold CreateSimplePptx.run, run_process.
    rewrite Hr. destruct (module_body_failure tpl e x w' Hr) as (Hout & Herr).
    cbn. by rewrite Hout, Herr.
Qed.

(** C2, amended, at the runs where [prs.save] raises "No space left on
    device": library call 30 of create-test-pptx.py, library call 26 of
    create_simple_pptx.py. *)
Lemma general_failure_handling_witness :
  (exit_status (run create_test_pptx_py default_template (env_failing_at 30 disk_full)) = 0 /\
   stdout (final (run create_test_pptx_py default_template (env_failing_at 30 disk_full))) =
     stdout (CreateTestPptx.create_test_pptx default_template (env_failing_at 30 disk_full)
               (CreateTestPptx.world_at_call (env_failing_at 30 disk_full))).2
     ++ [("utf-8", "[ERROR] Failed to create file: " +:+ exn_msg disk_full)] /\
   stderr (final (run create_test_pptx_py default_template (env_failing_at 30 disk_full)))
     = [Traceback disk_full]) /\
  (exit_status (run create_simple_pptx_py default_template (env_failing_at 26 disk_full)) = 1 /\
   stdout (final (run create_simple_pptx_py default_template (env_failing_at 26 disk_full))) = [] /\
   stderr (final (run create_simple_pptx_py default_template (env_failing_at 26 disk_full)))
     = [Traceback disk_full]).
Proof.
  split.
  - apply (proj1 general_failure_handling default_template (env_failing_at 30 disk_full) disk_full).
    + reflexivity.
    + reflexivity.
    + vm_compute. reflexivity.
    + reflexivity.
  - apply (proj2 general_failure_handling default_template (env_failing_at 26 disk_full) disk_full
             (CreateSimplePptx.module_body default_template (env_failing_at 26 disk_full)
                (initial_world (env_failing_at 26 disk_full))).2).
    vm_compute. reflexivity.
Defined.

(** ** C3: the success output *)

(** C3, as stated, fails: a successful run of
    tests/fixtures/create_simple_pptx.py builds two slides, and no line
    it prints names that count. *)
Lemma simple_success_line_lacks_slide_count :
  succeeds create_simple_pptx_py default_template quiet_env = true /\
  (length <$> (slides <$> document create_simple_pptx_py default_template quiet_env))
    = Some 2%nat /\
  ~ exists line,
      line ∈ output_lines create_simple_pptx_py default_template quiet_env /\
      contains (str_of_nat 2) line = true.
Proof.
  split_and!; [vm_compute; reflexivity | vm_compute; reflexivity | ].
  intros (line & Hin & Hc).
  replace (output_lines create_simple_pptx_py default_template quiet_env)
    with ["simple.pptx created successfully"] in Hin by (vm_compute; reflexivity).
  apply list_elem_of_singleton in Hin as ->. vm_compute in Hc. discriminate.
Qed.

(** C3, amended.  On success scripts/create-test-pptx.py prints three
    lines: the first names the output path, the second the slide count
    (2), the third repeats the count.  tests/fixtures/create_simple_pptx.py
    prints the one line "simple.pptx created successfully", which names
    the output path and not the slide count. *)
Theorem success_output s tpl e :
  succeeds s tpl e = true ->
  match s with
  | create_test_pptx_py =>
      exists l1 l2 l3,
        output_lines s tpl e = [l1; l2; l3] /\
        l1 = "[OK] Successfully created test PPTX file: " +:+ output_path s /\
        l2 = "   Slide count: " +:+ str_of_nat 2 /\
        l3 = "   File size: ~" +:+ str_of_nat 2 +:+ " slides with basic elements" /\
        contains (output_path s) l1 = true /\ contains (str_of_nat 2) l2 = true
  | create_simple_pptx_py =>
      output_lines s tpl e = ["simple.pptx created successfully"] /\
      contains (output_path s) "simple.pptx created successfully" = true /\
      contains (str_of_nat 2) "simple.pptx created successfully" = false
  end.
Proof.
  intros Hs. destruct (success_final s tpl e Hs) as (_ & Hout & _).
  unfold output_lines. rewrite Hout, <- list_fmap_compose.
  destruct s; cbn.
  - eexists _, _, _. split_and!; reflexivity.
  - split_and!; reflexivity.
Qed.

(** C3, amended, at the run of create-test-pptx.py with no failing call. *)
Lemma success_output_witness :
  succeeds create_test_pptx_py default_template quiet_env = true /\
  exists l1 l2 l3,
    output_lines create_test_pptx_py default_template quiet_env = [l1; l2; l3] /\
    l1 = "[OK] Successfully created test PPTX file: " +:+ output_path create_test_pptx_py /\
    l2 = "   Slide count: " +:+ str_of_nat 2 /\
    l3 = "   File size: ~" +:+ str_of_nat 2 +:+ " slides with basic elements" /\
    contains (output_path create_test_pptx_py) l1 = true /\ contains (str_of_nat 2) l2 = true.
Proof.
  split; [vm_compute; reflexivity | ].
  apply (success_output create_test_pptx_py default_template quiet_env).
  vm_compute; reflexivity.
Defined.

(** ** C4: two slides *)

(** C4.  After every successful run of either builder the presentation
    in memory has exactly 2 slides, and so has the presentation read
    back from the saved file. *)
Theorem successful_run_has_two_slides s tpl e :
  succeeds s tpl e = true ->
  exists p q,
    document s tpl e = Some p /\ length (slides p) = 2%nat /\
    reopen (final (run s tpl e)) (output_path s) = Some q /\ length (slides q) = 2%nat.
Proof.
  intros Hs. destruct (success_final s tpl e Hs) as (Hdoc & _ & _ & Hfiles & _).
  exists (described_document s tpl), (described_document s tpl).
  unfold document, reopen. rewrite Hdoc, Hfiles, lookup_insert_eq.
  by destruct s.
Qed.

(** C4 at a run of create_simple_pptx.py that overwrites an old file. *)
Lemma successful_run_has_two_slides_witness :
  succeeds create_simple_pptx_py default_template busy_env = true /\
  exists p q,
    document create_simple_pptx_py default_template busy_env = Some p /\
    length (slides p) = 2%nat /\
    reopen (final (run create_simple_pptx_py default_template busy_env)) "simple.pptx" = Some q /\
    length (slides q) = 2%nat.
Proof.
  split; [vm_compute; reflexivity | ].
  apply (successful_run_has_two_slides create_simple_pptx_py default_template busy_env).
  vm_compute; reflexivity.
Defined.

(** ** C5: the output file *)

(** C5.  After a successful run the builder's fixed relative path holds
    a file, its content is the complete package of the document built,
    no other path was written, and [create_test_pptx()] returned that
    path. *)
Theorem output_file_written s tpl e :
  succeeds s tpl e = true ->
  files (final (run s tpl e)) !! output_path s = Package <$> document s tpl e /\
  is_Some (files (final (run s tpl e)) !! output_path s) /\
  (forall path, path <> output_path s ->
     files (final (run s tpl e)) !! path = initial_files e !! path) /\
  match s with
  | create_test_pptx_py =>
      exists w', CreateTestPptx.create_test_pptx tpl e (CreateTestPptx.world_at_call e)
                 = (Ok "tests/fixtures/simple.pptx", w')
  | create_simple_pptx_py => output_path s = "simple.pptx"
  end.
Proof.
  intros Hs. destruct (success_final s tpl e Hs) as (Hdoc & _ & _ & Hfiles & _).
  unfold document. rewrite Hdoc, Hfiles, lookup_insert_eq.
  split_and!; [done | by eexists | | ].
  - intros path Hne. by rewrite lookup_insert_ne.
  - destruct s; [ | done].
    destruct (create_test_pptx_py_success tpl e Hs) as (Hret & _). by eexists.
Qed.

(** C5 at a run of create-test-pptx.py among other files. *)
Lemma output_file_written_witness :
  succeeds create_test_pptx_py default_template busy_env = true /\
  files (final (run create_test_pptx_py default_template busy_env)) !! "tests/fixtures/simple.pptx"
    = Package <$> document create_test_pptx_py default_template busy_env /\
  is_Some (files (final (run create_test_pptx_py default_template busy_env))
             !! "tests/fixtures/simple.pptx") /\
  (forall path, path <> "tests/fixtures/simple.pptx" ->
     files (final (run create_test_pptx_py default_template busy_env)) !! path
       = initial_files busy_env !! path) /\
  exists w', CreateTestPptx.create_test_pptx default_template busy_env
               (CreateTestPptx.world_at_call busy_env)
             = (Ok "tests/fixtures/simple.pptx", w').
Proof.
  split; [vm_compute; reflexivity | ].
  apply (output_file_written create_test_pptx_py default_template busy_env).
  vm_compute; reflexivity.
Defined.

(** ** C6: the title of the first slide *)

(** C6.  After every successful run the title text of the first slide
    is the literal the script set: "PPTX to JSON Conversion Test" for
    scripts/create-test-pptx.py, "测试演示文稿" for
    tests/fixtures/create_simple_pptx.py. *)
Theorem first_slide_title_is_literal s tpl e :
  succeeds s tpl e = true ->
  exists p sl,
    document s tpl e = Some p /\ slides p !! 0%nat = Some sl /\
    title_text sl = Some (title_literal s).
Proof.
  intros Hs. destruct (success_final s tpl e Hs) as (Hdoc & _ & _ & _ & Hph).
  unfold document. rewrite Hdoc.
  destruct s; cbn [described_document title_literal].
  - eexists _, _. split_and!; [reflexivity | reflexivity | ].
    by apply title_text_title_slide_of.
  - eexists _, _. split_and!; [reflexivity | reflexivity | ].
    by apply title_text_title_slide_of.
Qed.

(** C6 at the run of create_simple_pptx.py with no failing call. *)
Lemma first_slide_title_is_literal_witness :
  succeeds create_simple_pptx_py default_template quiet_env = true /\
  exists p sl,
    document create_simple_pptx_py default_template quiet_env = Some p /\
    slides p !! 0%nat = Some sl /\
    title_text sl = Some "测试演示文稿".
Proof.
  split; [vm_compute; reflexivity | ].
  apply (first_slide_title_is_literal create_simple_pptx_py default_template quiet_env).
  vm_compute; reflexivity.
Defined.

(** ** C7: the rectangle *)

(** C7.  In the document scripts/create-test-pptx.py builds, the second
    slide has a rectangle with solid fill RGB (0x70, 0xC0, 0x00), line
    colour RGB (0, 0, 0), line width 1pt, at left 5in, top 2in, 2in wide
    and 1.5in high. *)
Theorem second_slide_has_green_rectangle tpl e :
  succeeds create_test_pptx_py tpl e = true ->
  exists p sl sh,
    document create_test_pptx_py tpl e = Some p /\ slides p !! 1%nat = Some sl /\
    sh ∈ slide_shapes sl /\
    sh_kind sh = AutoShape RECTANGLE /\
    sh_fill sh = FillSolid (Some (Rgb 0x70 0xC0 0x00)) /\
    line_fill (sh_line sh) = FillSolid (Some (Rgb 0 0 0)) /\
    line_width (sh_line sh) = Some (Pt 1) /\
    sh_geometry sh = Some (Geometry (Inches 5) (Inches 2) (Inches 2) (Inches 1.5)).
Proof.
  intros Hs. destruct (success_final _ tpl e Hs) as (Hdoc & _).
  unfold document. rewrite Hdoc.
  eexists _, _, green_rectangle. split_and!; try reflexivity.
  cbn [content_slide_of slide_shapes]. set_solver.
Qed.

(** C7 at the run with no failing call. *)
Lemma second_slide_has_green_rectangle_witness :
  succeeds create_test_pptx_py default_template quiet_env = true /\
  exists p sl sh,
    document create_test_pptx_py default_template quiet_env = Some p /\
    slides p !! 1%nat = Some sl /\
    sh ∈ slide_shapes sl /\
    sh_kind sh = AutoShape RECTANGLE /\
    sh_fill sh = FillSolid (Some (Rgb 0x70 0xC0 0x00)) /\
    line_fill (sh_line sh) = FillSolid (Some (Rgb 0 0 0)) /\
    line_width (sh_line sh) = Some (Pt 1) /\
    sh_geometry sh = Some (Geometry (Inches 5) (Inches 2) (Inches 2) (Inches 1.5)).
Proof.
  split; [vm_compute; reflexivity | ].
  apply (second_slide_has_green_rectangle default_template quiet_env).
  vm_compute; reflexivity.
Defined.

(** ** C8: determinism *)

(** C8.  Each builder is deterministic: any two successful runs, in
    whatever environments, leave the same presentation in memory, the
    one the script's literals describe; and replacing the command-line
    arguments and the environment variables changes nothing in a run. *)
Theorem builders_are_deterministic s tpl e1 e2 :
  succeeds s tpl e1 = true ->
  succeeds s tpl e2 = true ->
  document s tpl e1 = document s tpl e2 /\
  document s tpl e1 = Some (described_document s tpl) /\
  (forall args vars, run s tpl (with_args e1 args vars) = run s tpl e1).
Proof.
  intros H1 H2.
  destruct (success_final s tpl e1 H1) as (Hdoc1 & _).
  destruct (success_final s tpl e2 H2) as (Hdoc2 & _).
  unfold document. rewrite Hdoc1, Hdoc2. split_and!; [done | done | ].
  intros args vars. apply run_ignores_arguments.
Qed.

(** C8 at two runs of create-test-pptx.py that differ in arguments,
    environment variables, console encoding and files. *)
Lemma builders_are_deterministic_witness :
  succeeds create_test_pptx_py default_template quiet_env = true /\
  succeeds create_test_pptx_py default_template busy_env = true /\
  document create_test_pptx_py default_template quiet_env
    = document create_test_pptx_py default_template busy_env /\
  document create_test_pptx_py default_template quiet_env
    = Some (described_document create_test_pptx_py default_template) /\
  (forall args vars,
     run create_test_pptx_py default_template (with_args quiet_env args vars)
       = run create_test_pptx_py default_template quiet_env).
Proof.
  split; [vm_compute; reflexivity | ].
  split; [vm_compute; reflexivity | ].
  apply (builders_are_deterministic create_test_pptx_py default_template quiet_env busy_env).
  - vm_compute; reflexivity.
  - vm_compute; reflexivity.
Defined.

(** ** C9: the three paragraphs *)

(** C9.  In the document tests/fixtures/create_simple_pptx.py builds,
    the one text box of the second slide holds exactly three paragraphs,
    "这是第一行文本", "这是第二行文本", "这是第三行文本" in this order, each with
    font size 18pt; the second has indent level 1, the others level 0. *)
Theorem simple_text_box_paragraphs tpl e :
  succeeds create_simple_pptx_py tpl e = true ->
  exists p sl sh,
    document create_simple_pptx_py tpl e = Some p /\ slides p !! 1%nat = Some sl /\
    List.filter is_textbox (slide_shapes sl) = [sh] /\
    paragraphs (sh_text_frame sh) =
      [ Paragraph "这是第一行文本" (Some (Pt 18)) None 0;
        Paragraph "这是第二行文本" (Some (Pt 18)) None 1;
        Paragraph "这是第三行文本" (Some (Pt 18)) None 0 ].
Proof.
  intros Hs. destruct (success_final _ tpl e Hs) as (Hdoc & _).
  unfold document. rewrite Hdoc.
  eexists _, _, _. do 2 (split; [reflexivity|]). split.
  - cbn [content_slide_of slide_shapes].
    rewrite List.filter_app, filter_none; [reflexivity|].
    apply set_placeholder_text_no_textbox, cloned_no_textbox.
  - reflexivity.
Qed.

(** C9 at the run with no failing call. *)
Lemma simple_text_box_paragraphs_witness :
  succeeds create_simple_pptx_py default_template quiet_env = true /\
  exists p sl sh,
    document create_simple_pptx_py default_template quiet_env = Some p /\
    slides p !! 1%nat = Some sl /\
    List.filter is_textbox (slide_shapes sl) = [sh] /\
    paragraphs (sh_text_frame sh) =
      [ Paragraph "这是第一行文本" (Some (Pt 18)) None 0;
        Paragraph "这是第二行文本" (Some (Pt 18)) None 1;
        Paragraph "这是第三行文本" (Some (Pt 18)) None 0 ].
Proof.
  split; [vm_compute; reflexivity | ].
  apply (simple_text_box_paragraphs default_template quiet_env).
  vm_compute; reflexivity.
Defined.

(** ** C10: standard output is UTF-8 *)

(** C10.  scripts/create-test-pptx.py replaces [sys.stdout] by a UTF-8
    wrapper before it prints anything, so that every status line, of
    success or of failure, is written in UTF-8 whatever the console
    encoding.  In every run each line on standard output went through
    the UTF-8 wrapper.  When lines 6 to 14 go through (python-pptx
    importable, [sys.stdout] with a buffer), [sys.stdout] is the UTF-8
    wrapper when the run ends and the run has printed at least one
    status line; otherwise the run ends before the first [print] and
    standard output is empty.  Standard output is the same on a console
    of any other encoding. *)
Theorem status_lines_are_utf8 tpl e :
  Forall (fun c => c.1 = "utf-8") (stdout (final (run create_test_pptx_py tpl e))) /\
  (pptx_installed e = true -> stdout_has_buffer e = true ->
     stdout_encoding (final (run create_test_pptx_py tpl e)) = "utf-8" /\
     stdout (final (run create_test_pptx_py tpl e)) <> []) /\
  (pptx_installed e && stdout_has_buffer e = false ->
     stdout (final (run create_test_pptx_py tpl e)) = []) /\
  (forall enc,
     stdout (final (run create_test_pptx_py tpl (with_console_encoding e enc)))
     = stdout (final (run create_test_pptx_py tpl e))).
Proof.
  cbn [run].
  destruct (pptx_installed e) eqn:Hpptx;
    [destruct (stdout_buffer_fault e) as [y|] eqn:Hy | ].
  - rewrite (create_test_pptx_py_run_no_buffer tpl e y Hpptx Hy).
    split_and!; [constructor | | done | ].
    + unfold stdout_has_buffer. by rewrite Hy.
    + intros enc. by rewrite (create_test_pptx_py_run_no_buffer tpl _ y).
  - assert (Hbuf : stdout_has_buffer e = true) by (unfold stdout_has_buffer; by rewrite Hy).
    assert (Hhere :
      Forall (fun c => c.1 = "utf-8") (stdout (final (CreateTestPptx.run tpl e))) /\
      stdout_encoding (final (CreateTestPptx.run tpl e)) = "utf-8" /\
      stdout (final (CreateTestPptx.run tpl e)) <> []).
    { rewrite (create_test_pptx_py_run tpl e Hpptx Hbuf).
      destruct (CreateTestPptx.create_test_pptx tpl e (CreateTestPptx.world_at_call e))
        as [[path|x] w'] eqn:Hr.
      - assert (Hs : CreateTestPptx.succeeds tpl e = true).
        { unfold CreateTestPptx.succeeds. by rewrite Hpptx, Hbuf, Hr. }
        destruct (create_test_pptx_py_success tpl e Hs) as (Hret & Hfin & _).
        rewrite Hr in Hret. injection Hret as _ ->. rewrite Hfin. cbn.
        split_and!; [by repeat constructor | done | done].
      - destruct (create_test_pptx_failure tpl e x w' Hr) as (Henc & _ & Hutf).
        destruct (is_ImportError x); cbn; rewrite Henc;
          (split_and!;
           [ repeat (apply Forall_app; split); by repeat constructor
           | done
           | by intros [_ [=]]%app_eq_nil ]). }
    destruct Hhere as (Hall & Henc & Hne).
    split_and!; [done | done | by rewrite Hbuf | ].
    intros enc.
    rewrite (create_test_pptx_py_run tpl (with_console_encoding e enc) Hpptx Hbuf),
      (create_test_pptx_py_run tpl e Hpptx Hbuf).
    change (CreateTestPptx.world_at_call (with_console_encoding e enc))
      with (CreateTestPptx.world_at_call e).
    by rewrite create_test_pptx_ignores_console.
  - rewrite (create_test_pptx_py_run_no_pptx tpl e Hpptx).
    split_and!; [constructor | done | done | ].
    intros enc. by rewrite (create_test_pptx_py_run_no_pptx tpl _).
Qed.

(** C10 at two runs on a GBK console: one that succeeds and one where
    [prs.save] raises. *)
Lemma status_lines_are_utf8_witness :
  console_encoding quiet_env = "cp936" /\
  (stdout_encoding (final (run create_test_pptx_py default_template quiet_env)) = "utf-8" /\
   stdout (final (run create_test_pptx_py default_template quiet_env)) <> []) /\
  stdout (final (run create_test_pptx_py default_template quiet_env)) =
    [ ("utf-8", "[OK] Successfully created test PPTX file: tests/fixtures/simple.pptx");
      ("utf-8", "   Slide count: 2");
      ("utf-8", "   File size: ~2 slides with basic elements") ] /\
  console_encoding (env_failing_at 30 disk_full) = "cp936" /\
  (stdout_encoding (final (run create_test_pptx_py default_template (env_failing_at 30 disk_full)))
     = "utf-8" /\
   stdout (final (run create_test_pptx_py default_template (env_failing_at 30 disk_full))) <> []) /\
  stdout (final (run create_test_pptx_py default_template (env_failing_at 30 disk_full))) =
    [ ("utf-8", "[ERROR] Failed to create file: [Errno 28] No space left on device") ].
Proof.
  split; [reflexivity|].
  split; [apply (proj1 (proj2 (status_lines_are_utf8 default_template quiet_env))); reflexivity|].
  split; [vm_compute; reflexivity|].
  split; [reflexivity|].
  split; [ | vm_compute; reflexivity].
  apply (proj1 (proj2 (status_lines_are_utf8 default_template (env_failing_at 30 disk_full))));
    reflexivity.
Defined.

(** * More of the scripts' behaviour *)

(** ** Rules that keep what a run shows about the fault table *)
Lemma wp_on_prs_call {A} (f : presentation -> result (A * presentation)) e w Q E :
  (forall x, E x (tick w)) ->
  (forall p a p', faults e (calls w) = None -> heap_prs w = Some p -> f p = Ok (a, p') ->
     Q a (set_prs p' (tick w))) ->
  wp (library_call (on_prs f)) e w Q E.
Proof.
  intros Hx Hok. apply wp_library_call; [done | intros Hf].
  unfold on_prs. change (heap_prs (tick w)) with (heap_prs w).
  destruct (heap_prs w) as [p|] eqn:Hp; [ | done].
  destruct (f p) as [[a p']|x] eqn:Hfp; [ | done].
  by apply (Hok p).
Qed.

Lemma wp_Presentation_call tpl e w Q E :
  (forall x, E x (tick w)) ->
  (faults e (calls w) = None ->
   Q tt (set_prs (Presentation_ (tpl_slide_width tpl) (tpl_slide_height tpl)
                                (tpl_layouts tpl) []) (tick w))) ->
  wp (Presentation tpl) e w Q E.
Proof. intros Hx Hok. apply wp_library_call; [done | done]. Qed.

(** The save of a presentation that is there: it fails before it opens
    its target, or fails midway, or goes through. *)
Lemma wp_save_fwd prs path e w p Q E :
  heap_prs w = Some p ->
  (forall x, faults e (calls w) = Some x -> save_fails_midway e = false -> E x (tick w)) ->
  (forall x, faults e (calls w) = Some x -> save_fails_midway e = true ->
     E x (write_file path HalfWritten (tick w))) ->
  (faults e (calls w) = None -> Q tt (write_file path (Package p) (tick w))) ->
  wp (save prs path) e w Q E.
Proof.
  intros Hp Hx Hhalf Hok. unfold wp, save. rewrite Hp.
  destruct (faults e (calls w)) as [x|]; [ | by apply Hok].
  destruct (save_fails_midway e); [by apply Hhalf | by apply Hx].
Qed.

Lemma wp_set_text_call t s e w Q E :
  (forall x, E x w) -> (forall x, E x (tick w)) ->
  (forall r p sh, faults e (calls w) = None -> t = Some r -> heap_prs w = Some p ->
     lookup_shape r p = Some sh ->
     Q tt (set_prs (put_shape r (set_shape_text s sh) p) (tick w))) ->
  wp (set_text t s) e w Q E.
Proof.
  intros Hx0 Hx Hok. destruct t as [r|]; [ | by apply wp_raise].
  apply wp_on_prs_call; [done|]. intros p a p' Hf Hp Hfp. unfold update_shape in Hfp.
  destruct (lookup_shape r p) as [sh|] eqn:Hsh; [ | done].
  injection Hfp as <- <-. by eapply Hok.
Qed.

Ltac call_step exc :=
  let Hc := fresh "Hcall" in
  lazymatch goal with
  | |- wp (bind _ _) _ _ _ _ => apply wp_bind
  | |- wp (ret _) _ _ _ _ => apply wp_ret
  | |- wp (print _) _ _ _ _ => apply wp_print; norm_state
  | |- wp (lift ?r) _ _ _ _ =>
      apply wp_lift; let r' := eval cbv in r in change r with r'; cbv beta iota
  | |- wp (Presentation _) _ _ _ _ =>
      apply wp_Presentation_call;
      [intros; cbn; exc | intros Hc; cbn [calls] in Hc; norm_state]
  | |- wp (save _ _) _ _ _ _ => fail "the save is stepped through by hand"
  | |- wp (set_text _ _) _ _ _ _ =>
      apply wp_set_text_call; [intros; cbn; exc | intros; cbn; exc | ];
      let Ht := fresh "Ht" in let Hsh := fresh "Hsh" in
      intros ? ? ? Hc Ht [= <-] Hsh; cbn [calls] in Hc;
      first [ injection Ht as <- | apply fmap_Some in Ht as (? & ? & ->) ];
      simp_hyp Hsh; norm_state
  | |- wp ?m ?e ?w ?Q ?E =>
      let m' := eval red in m in
      change (wp m' e w Q E);
      apply wp_on_prs_call;
      [ intros; cbn; exc
      | let Hf := fresh "Hf" in
        intros ? ? ? Hc [= <-] Hf; cbn [calls] in Hc;
        simp_hyp Hf; case_hyp Hf; injection Hf as <- <-; norm_state ]
  end.

Ltac all_calls := 
  let k := fresh "k" in let Hk := fresh "Hk" in
  intros k Hk; cbn in *;
  repeat (destruct k as [|k]; [assumption|]); lia.

Lemma has_placeholder_found idx layout j :
  find_index (is_placeholder idx) (cloned_placeholders layout) = Some j ->
  has_placeholder idx layout = true.
Proof. unfold has_placeholder. by intros ->. Qed.


Ltac not_at_save :=
  lazymatch goal with
  | |- wp (bind (save _ _) _) _ _ _ _ => fail
  | |- _ => idtac
  end.

Ltac exc_unsaved := left; split; reflexivity.

Ltac exc_saved :=
  right; right; split;
  [ reflexivity
  | first [ left; reflexivity
          | right; rewrite <- ?app_assoc; reflexivity ] ].

(* the save itself: [half] proves the postcondition of a failure midway *)
Ltac save_step half :=
  let Hc := fresh "Hcall" in
  let Hx := fresh "Hx" in
  let Hm := fresh "Hm" in
  apply wp_bind; eapply wp_save_fwd;
  [ reflexivity
  | intros; cbn; left; first [split; reflexivity | reflexivity]
  | intros ? Hx Hm; cbn [calls] in Hx; cbn; half Hx Hm
  | intros Hc; cbn [calls] in Hc; norm_state ].

(* replace the presentation of the goal's world by its description *)
Ltac fold_document doc tac :=
  lazymatch goal with
  | |- wp _ _ (World (Some ?D) _ _ _ _ _) _ _ =>
      let HD := fresh "HD" in
      assert (HD : D = doc); [ tac | rewrite !HD ]
  end.

Lemma create_test_pptx_needs tpl e h c enc out err fs :
  wp (CreateTestPptx.create_test_pptx tpl) e (World h c enc out err fs)
     (fun _ w' =>
        (forall k, (k < 33)%nat -> faults e (k + c) = None) /\
        fits create_test_pptx_py tpl = true)
     (fun _ w' =>
        (files w' = fs /\ stdout w' = out) \/
        (files w' = <["tests/fixtures/simple.pptx" := HalfWritten]> fs /\ stdout w' = out /\
         save_fails_midway e = true /\
         (forall k, (k < 30)%nat -> faults e (k + c) = None) /\
         exists x, faults e (30 + c) = Some x) \/
        (files w' = <["tests/fixtures/simple.pptx" := Package (test_document tpl)]> fs /\
         (stdout w' = out ++ [(enc, ok_line)] \/
          stdout w' = out ++ [(enc, ok_line); (enc, "   Slide count: 2")]))).
Proof.
  unfold CreateTestPptx.create_test_pptx.
  repeat (not_at_save; call_step exc_unsaved).
  save_step ltac:(fun Hx Hm =>
    right; left; split_and!;
    [reflexivity | reflexivity | exact Hm | all_calls | eexists; exact Hx]).
  fold_document (test_document tpl) ltac:(
    unfold test_document;
    erewrite !layout_at_found by eassumption;
    erewrite title_slide_of_found; try eassumption;
    [ erewrite content_slide_of_found by eassumption;
      rewrite <- !app_assoc; reflexivity
    | erewrite find_index_insert; try eassumption; done ]).
  repeat call_step exc_saved.
  split; [all_calls | ].
  unfold fits. cbn. repeat match goal with H : tpl_layouts tpl !! _ = Some _ |- _ => rewrite H end.
  by erewrite !has_placeholder_found by eassumption.
Qed.

Lemma module_body_needs tpl e h c enc out err fs :
  wp (CreateSimplePptx.module_body tpl) e (World h c enc out err fs)
     (fun _ w' =>
        (forall k, (k < 27)%nat -> faults e (k + c) = None) /\
        fits create_simple_pptx_py tpl = true)
     (fun _ w' =>
        files w' = fs \/
        (files w' = <["simple.pptx" := HalfWritten]> fs /\
         pptx_installed e = true /\ save_fails_midway e = true /\
         (forall k, (k < 26)%nat -> faults e (k + c) = None) /\
         exists x, faults e (26 + c) = Some x)).
Proof.
  unfold CreateSimplePptx.module_body.
  apply wp_bind, wp_import; [intros Hpptx | by left].
  apply wp_bind, wp_import; [intros _ | by left].
  repeat (not_at_save; call_step ltac:(left; reflexivity)).
  save_step ltac:(fun Hx Hm =>
    right; split_and!;
    [reflexivity | hnf in Hpptx; exact Hpptx | exact Hm | all_calls | eexists; exact Hx]).
  repeat call_step ltac:(left; reflexivity).
  cbv beta. split; [all_calls | ].
  unfold fits. cbn. repeat match goal with H : tpl_layouts tpl !! _ = Some _ |- _ => rewrite H end.
  match goal with
  | H : find_index (is_placeholder 1) (<[_:=_]> _) = Some _ |- _ =>
      erewrite find_index_insert in H; [ | eassumption | done ]
  end.
  by erewrite !has_placeholder_found by eassumption.
Qed.

(** ** What a fitting template provides *)
Lemma has_placeholder_true idx layout :
  has_placeholder idx layout = true ->
  exists j sh, find_index (is_placeholder idx) (cloned_placeholders layout) = Some j /\
               cloned_placeholders layout !! j = Some sh /\
               is_placeholder idx sh = true.
Proof.
  unfold has_placeholder.
  destruct (find_index (is_placeholder idx) (cloned_placeholders layout)) as [j|] eqn:Hj; [ | done].
  intros _. destruct (find_index_Some _ _ _ Hj) as (sh & Hsh & Hp). by exists j, sh.
Qed.

Lemma fits_facts s tpl :
  fits s tpl = true ->
  exists first second j sh k shk j2 sh2,
    tpl_layouts tpl !! 0%nat = Some first /\
    tpl_layouts tpl !! (match s with
                        | create_test_pptx_py => 5%nat
                        | create_simple_pptx_py => 1%nat
                        end) = Some second /\
    find_index (is_placeholder 0) (cloned_placeholders first) = Some j /\
    cloned_placeholders first !! j = Some sh /\
    find_index (is_placeholder 1) (cloned_placeholders first) = Some k /\
    (forall t, find_index (is_placeholder 1)
                 (<[j := set_shape_text t sh]> (cloned_placeholders first)) = Some k) /\
    (forall t, <[j := set_shape_text t sh]> (cloned_placeholders first) !! k = Some shk) /\
    find_index (is_placeholder 0) (cloned_placeholders second) = Some j2 /\
    cloned_placeholders second !! j2 = Some sh2.
Proof.
  unfold fits.
  destruct (tpl_layouts tpl !! 0%nat) as [first|]; [ | done].
  destruct (tpl_layouts tpl !! _) as [second|]; [ | done].
  intros [[H0 H1]%andb_prop H2]%andb_prop.
  destruct (has_placeholder_true _ _ H0) as (j & sh & Hj & Hsh & Hp).
  destruct (has_placeholder_true _ _ H1) as (k & shk & Hk & Hshk & Hpk).
  destruct (has_placeholder_true _ _ H2) as (j2 & sh2 & Hj2 & Hsh2 & _).
  assert (j <> k) as Hne.
  { intros ->. rewrite Hsh in Hshk. injection Hshk as <-.
    by pose proof (is_placeholder_inj _ _ _ Hp Hpk). }
  exists first, second, j, sh, k, shk, j2, sh2. split_and!; try done.
  - intros t. by rewrite (find_index_insert _ _ _ sh).
  - intros t. by rewrite list_lookup_insert_ne.
Qed.

Lemma wp_on_prs_fwd {A} (f : presentation -> result (A * presentation)) e w p Q E :
  heap_prs w = Some p ->
  (forall x, faults e (calls w) = Some x -> E x (tick w)) ->
  (faults e (calls w) = None ->
   forall r, f p = r ->
   match r with
   | Ok (a, p') => Q a (set_prs p' (tick w))
   | Raise x => E x (tick w)
   end) ->
  wp (library_call (on_prs f)) e w Q E.
Proof.
  intros Hp Hx Hok. apply wp_library_call; [done | intros Hf].
  unfold on_prs. change (heap_prs (tick w)) with (heap_prs w). rewrite Hp.
  specialize (Hok Hf (f p) eq_refl). by destruct (f p) as [[a p']|x].
Qed.

Lemma wp_Presentation_fwd tpl e w Q E :
  (forall x, faults e (calls w) = Some x -> E x (tick w)) ->
  (faults e (calls w) = None ->
   Q tt (set_prs (Presentation_ (tpl_slide_width tpl) (tpl_slide_height tpl)
                                (tpl_layouts tpl) []) (tick w))) ->
  wp (Presentation tpl) e w Q E.
Proof. intros Hx Hok. by apply wp_library_call. Qed.

Ltac count_S t :=
  lazymatch t with
  | S ?t' => let n := count_S t' in constr:(S n)
  | _ => constr:(O)
  end.

(* rewrite the lookups the template promises *)
Ltac use_facts H :=
  repeat (progress (
    repeat match goal with
           | Heq : ?l = Some _ |- _ =>
               lazymatch l with faults _ _ => fail | _ => rewrite Heq in H end
           | Heq : forall t, _ = Some _ |- _ => rewrite Heq in H
           end;
    cbn in H)).

Ltac use_facts_goal :=
  repeat match goal with
         | Heq : ?l = Some _ |- _ =>
             lazymatch l with faults _ _ => fail | _ => rewrite Heq end
         end.

(* [fault k] proves the postcondition of a failure at library call [k] *)
Ltac fwd_call fault :=
  let Hc := fresh "Hcall" in
  let Hx := fresh "Hx" in
  lazymatch goal with
  | |- wp (Presentation _) _ _ _ _ =>
      apply wp_Presentation_fwd;
      [ intros ? Hx; cbn [calls] in Hx;
        lazymatch type of Hx with faults _ ?n = _ => let k := count_S n in fault k Hx end
      | intros Hc; cbn [calls] in Hc; norm_state ]
  | |- wp (save _ _) _ _ _ _ =>
      let Hm := fresh "Hm" in
      eapply wp_save_fwd;
      [ reflexivity
      | intros ? Hx Hm; cbn [calls] in Hx; rewrite Hm;
        lazymatch type of Hx with faults _ ?n = _ => let k := count_S n in fault k Hx end
      | intros ? Hx Hm; cbn [calls] in Hx; rewrite Hm;
        lazymatch type of Hx with faults _ ?n = _ => let k := count_S n in fault k Hx end
      | intros Hc; cbn [calls] in Hc; norm_state ]
  | |- wp ?m ?e ?w ?Q ?E =>
      let m' := eval red in m in
      change (wp m' e w Q E);
      eapply wp_on_prs_fwd;
      [ reflexivity
      | intros ? Hx; cbn [calls] in Hx;
        lazymatch type of Hx with faults _ ?n = _ => let k := count_S n in fault k Hx end
      | let Hf := fresh "Hf" in let r := fresh "r" in
        intros Hc r Hf; cbn [calls] in Hc;
        simp_hyp Hf; use_facts Hf; subst r; cbv beta iota; norm_state ]
  end.

Ltac fwd_step fault :=
  lazymatch goal with
  | |- wp (bind _ _) _ _ _ _ => apply wp_bind
  | |- wp (ret _) _ _ _ _ => apply wp_ret
  | |- wp (print _) _ _ _ _ => apply wp_print; norm_state
  | |- wp (lift ?r) _ _ _ _ =>
      apply wp_lift; let r' := eval cbv in r in change r with r'; cbv beta iota
  | |- wp (set_text ?t ?s) _ _ _ _ =>
      use_facts_goal; cbn [fmap option_fmap option_map];
      lazymatch goal with
      | |- wp (set_text (Some ?r) ?s) ?e ?w ?Q ?E =>
          change (wp (library_call (on_prs (update_shape r (fun sh => Ok (set_shape_text s sh)))))
                     e w Q E);
          fwd_call fault
      end
  | |- _ => fwd_call fault
  end.

Ltac earlier_calls :=
  let j := fresh "j" in let Hj := fresh "Hj" in
  intros j Hj; repeat (destruct j as [|j]; [cbn; assumption|]); lia.

Ltac fault_unsaved k Hx :=
  exists k; split_and!;
  [ cbn; lia | earlier_calls | exact Hx | reflexivity
  | cbn; by rewrite app_nil_r | reflexivity | reflexivity ].

Ltac fault_saved k Hx :=
  exists k; split_and!;
  [ cbn; lia | earlier_calls | exact Hx | reflexivity
  | cbn; rewrite <- ?app_assoc; reflexivity | reflexivity | reflexivity ].

Lemma create_test_pptx_faults tpl e h c enc out err fs :
  fits create_test_pptx_py tpl = true ->
  wp (CreateTestPptx.create_test_pptx tpl) e (World h c enc out err fs)
     (fun _ _ => True)
     (fun x w' =>
        exists k, (k < 33)%nat /\
          (forall j, (j < k)%nat -> faults e (j + c) = None) /\
          faults e (k + c) = Some x /\
          files w' = files_after_fault create_test_pptx_py tpl (save_fails_midway e) k fs /\
          stdout w' = out ++ ((fun l => (enc, l)) <$> printed_before k) /\
          stderr w' = err /\ stdout_encoding w' = enc).
Proof.
  intros (first & second & j & sh & k & shk & j2 & sh2 &
          Hl0 & Hl5 & Hj & Hsh & Hk & Hk' & Hshk & Hj2 & Hsh2)%fits_facts.
  unfold CreateTestPptx.create_test_pptx.
  repeat (not_at_save; fwd_step fault_unsaved).
  apply wp_bind. fwd_step fault_unsaved.
  fold_document (test_document tpl) ltac:(
    unfold test_document;
    rewrite (layout_at_found _ _ _ Hl0), (layout_at_found _ _ _ Hl5);
    rewrite (title_slide_of_found _ _ _ j k sh shk Hj Hsh (Hk' _) (Hshk _));
    rewrite (content_slide_of_found _ _ _ j2 sh2 Hj2 Hsh2);
    rewrite <- !app_assoc; reflexivity).
  repeat fwd_step fault_saved.
  done.
Qed.

Ltac fault_silent k Hx :=
  exists k; split_and!;
  [ cbn; lia | earlier_calls | exact Hx | reflexivity | reflexivity | reflexivity ].

Lemma module_body_faults tpl e h c enc out err fs :
  pptx_installed e = true ->
  fits create_simple_pptx_py tpl = true ->
  wp (CreateSimplePptx.module_body tpl) e (World h c enc out err fs)
     (fun _ _ => True)
     (fun x w' =>
        exists k, (k < 27)%nat /\
          (forall j, (j < k)%nat -> faults e (j + c) = None) /\
          faults e (k + c) = Some x /\
          files w' = files_after_fault create_simple_pptx_py tpl (save_fails_midway e) k fs /\
          stdout w' = out /\ stderr w' = err).
Proof.
  intros Hpptx (first & second & j & sh & k & shk & j2 & sh2 &
                Hl0 & Hl5 & Hj & Hsh & Hk & Hk' & Hshk & Hj2 & Hsh2)%fits_facts.
  unfold CreateSimplePptx.module_body.
  apply wp_bind, wp_import; [intros _ | unfold importable; cbn; congruence].
  apply wp_bind, wp_import; [intros _ | unfold importable; cbn; congruence].
  repeat fwd_step fault_silent.
  done.
Qed.

(* a first layout without title *)
Ltac fault_excluded Hnf k Hx :=
  let H := fresh in
  pose proof (Hnf k ltac:(lia)) as H; cbn in H; congruence.

Ltac fwd_step_none fault :=
  lazymatch goal with
  | |- wp (set_text ?t ?s) _ _ _ _ =>
      use_facts_goal;
      repeat match goal with
             | Heq : _ = None |- _ => rewrite Heq
             end;
      cbn [fmap option_fmap option_map];
      lazymatch goal with
      | |- wp (set_text None _) _ _ _ _ => apply wp_raise
      | |- _ => fwd_step fault
      end
  | |- _ => fwd_step fault
  end.

Lemma create_test_pptx_without_title tpl e first k h c enc out err fs :
  tpl_layouts tpl !! 0%nat = Some first ->
  find_index (is_placeholder 0) (cloned_placeholders first) = None ->
  find_index (is_placeholder 1) (cloned_placeholders first) = Some k ->
  (forall j, (j < 7)%nat -> faults e (j + c) = None) ->
  wp (CreateTestPptx.create_test_pptx tpl) e (World h c enc out err fs)
     (fun _ _ => False)
     (fun x w' =>
        x = none_has_no_text /\ files w' = fs /\ stdout w' = out /\
        stderr w' = err /\ stdout_encoding w' = enc).
Proof.
  intros Hl0 Hj Hk Hnf.
  unfold CreateTestPptx.create_test_pptx.
  repeat (lazymatch goal with |- wp _ _ _ _ _ => idtac end;
          fwd_step_none ltac:(fault_excluded Hnf)).
  done.
Qed.

Lemma module_body_without_title tpl e first h c enc out err fs :
  pptx_installed e = true ->
  tpl_layouts tpl !! 0%nat = Some first ->
  find_index (is_placeholder 0) (cloned_placeholders first) = None ->
  (forall j, (j < 6)%nat -> faults e (j + c) = None) ->
  wp (CreateSimplePptx.module_body tpl) e (World h c enc out err fs)
     (fun _ _ => False)
     (fun x w' =>
        x = none_has_no_text /\ files w' = fs /\ stdout w' = out /\ stderr w' = err).
Proof.
  intros Hpptx Hl0 Hj Hnf.
  unfold CreateSimplePptx.module_body.
  apply wp_bind, wp_import; [intros _ | unfold importable; cbn; congruence].
  apply wp_bind, wp_import; [intros _ | unfold importable; cbn; congruence].
  repeat (lazymatch goal with |- wp _ _ _ _ _ => idtac end;
          fwd_step_none ltac:(fault_excluded Hnf)).
  done.
Qed.


Lemma no_fault_before_plus n e :
  no_fault_before n e <-> (forall k, (k < n)%nat -> faults e (k + 0) = None).
Proof.
  unfold no_fault_before.
  split; intros H k Hk; [rewrite Nat.add_0_r | rewrite <- (Nat.add_0_r k)]; by apply H.
Qed.

(** success, from its conditions and to them *)
Lemma succeeds_conditions s tpl e :
  succeeds s tpl e = true <->
  pptx_installed e = true /\ stdout_fits s e = true /\
  no_fault_before (library_calls s) e /\ fits s tpl = true.
Proof.
  rewrite no_fault_before_plus. destruct s; cbn [succeeds library_calls stdout_fits].
  - unfold CreateTestPptx.succeeds.
    pose proof (create_test_pptx_needs tpl e None 0 "utf-8" [] [] (initial_files e)) as Hn.
    unfold wp in Hn.
    change (World None 0 "utf-8" [] [] (initial_files e))
      with (CreateTestPptx.world_at_call e) in Hn.
    split.
    + intros [[Hp Hb]%andb_prop Hr]%andb_prop. do 2 (split; [done|]).
      by destruct (CreateTestPptx.create_test_pptx tpl e (CreateTestPptx.world_at_call e))
        as [[path|x] w'].
    + intros (Hp & Hb & Hnf & Hfit). rewrite Hp, Hb. cbn.
      pose proof (create_test_pptx_faults tpl e None 0 "utf-8" [] [] (initial_files e) Hfit) as Hf.
      unfold wp in Hf.
      change (World None 0 "utf-8" [] [] (initial_files e))
        with (CreateTestPptx.world_at_call e) in Hf.
      destruct (CreateTestPptx.create_test_pptx tpl e (CreateTestPptx.world_at_call e))
        as [[path|x] w']; [done|].
      destruct Hf as (k & Hk & _ & Hx & _). rewrite (Hnf k Hk) in Hx. done.
  - unfold CreateSimplePptx.succeeds.
    pose proof (module_body_needs tpl e None 0 (console_encoding e) [] [] (initial_files e)) as Hn.
    pose proof (module_body_wp tpl e None 0 (console_encoding e) [] [] (initial_files e)) as Hw.
    unfold wp in Hn, Hw.
    change (World None 0 (console_encoding e) [] [] (initial_files e))
      with (initial_world e) in Hn, Hw.
    split.
    + intros Hr.
      destruct (CreateSimplePptx.module_body tpl e (initial_world e)) as [[u|x] w']; [ | done].
      destruct Hw as (Hp & _). by split.
    + intros (Hp & _ & Hnf & Hfit).
      pose proof (module_body_faults tpl e None 0 (console_encoding e) [] []
                    (initial_files e) Hp Hfit) as Hf.
      unfold wp in Hf.
      change (World None 0 (console_encoding e) [] [] (initial_files e))
        with (initial_world e) in Hf.
      destruct (CreateSimplePptx.module_body tpl e (initial_world e)) as [[u|x] w']; [done|].
      destruct Hf as (k & Hk & _ & Hx & _). rewrite (Hnf k Hk) in Hx. done.
Qed.

Lemma first_fault_plus e k x :
  first_fault e k x ->
  (forall j, (j < k)%nat -> faults e (j + 0) = None) /\ faults e (k + 0) = Some x.
Proof.
  intros [Hnf Hx]. rewrite Nat.add_0_r. split; [ | done].
  intros j Hj. rewrite Nat.add_0_r. by apply Hnf.
Qed.

Lemma first_fault_from_zero e k x :
  (forall j, (j < k)%nat -> faults e (j + 0) = None) -> faults e (k + 0) = Some x ->
  first_fault e k x.
Proof.
  intros Hnf Hx. rewrite Nat.add_0_r in Hx. split; [ | done].
  intros j Hj. rewrite <- (Nat.add_0_r j). by apply Hnf.
Qed.

Lemma first_fault_unique e k k' x x' :
  (forall j, (j < k)%nat -> faults e (j + 0) = None) -> faults e (k + 0) = Some x ->
  (forall j, (j < k')%nat -> faults e (j + 0) = None) -> faults e (k' + 0) = Some x' ->
  k = k' /\ x = x'.
Proof.
  intros Hnf Hx Hnf' Hx'.
  assert (k = k') as <-.
  { destruct (Nat.lt_trichotomy k k') as [Hlt|[Heq|Hgt]]; [ | done | ].
    - rewrite (Hnf' k Hlt) in Hx. done.
    - rewrite (Hnf k' Hgt) in Hx'. done. }
  split; [done | congruence].
Qed.

Lemma untag (enc : string) (ls : list string) :
  (snd <$> ((fun l => (enc, l)) <$> ls)) = ls.
Proof.
  rewrite <- list_fmap_compose.
  rewrite (list_fmap_ext _ id ls); [apply list_fmap_id | done].
Qed.

(** X2.  scripts/create-test-pptx.py, lines 6 to 14 gone through,
    template fitting: when the first library call to fail is call [k]
    and it raises [x] (an instance of [Exception], as all of [exn] are),
    the process ends with status 0, standard output holds what
    [create_test_pptx()] had printed by then followed by the handler's
    lines for [x], and standard error holds the trace unless [x] is an
    import error.  The files are as they were when the failure came
    before the save, the complete document is at the output path when it
    came after; when the save itself fails, the files are as they were
    if it could not open its target, and a half-written file is at the
    output path, in place of what was there, if it failed midway. *)
Theorem first_fault_is_reported tpl e k x :
  pptx_installed e = true ->
  stdout_has_buffer e = true ->
  fits create_test_pptx_py tpl = true ->
  first_fault e k x ->
  (k < 33)%nat ->
  exit_status (run create_test_pptx_py tpl e) = 0 /\
  output_lines create_test_pptx_py tpl e = printed_before k ++ handler_lines x /\
  stderr (final (run create_test_pptx_py tpl e)) = handler_trace x /\
  files (final (run create_test_pptx_py tpl e)) =
    files_after_fault create_test_pptx_py tpl (save_fails_midway e) k (initial_files e).
Proof.
  intros Hp Hb Hfit [Hnf Hx]%first_fault_plus Hk.
  pose proof (create_test_pptx_faults tpl e None 0 "utf-8" [] [] (initial_files e) Hfit) as Hf.
  pose proof (create_test_pptx_needs tpl e None 0 "utf-8" [] [] (initial_files e)) as Hn.
  unfold wp in Hf, Hn.
  change (World None 0 "utf-8" [] [] (initial_files e))
    with (CreateTestPptx.world_at_call e) in Hf, Hn.
  unfold output_lines. cbn [run].
  rewrite (create_test_pptx_py_run tpl e Hp Hb).
  destruct (CreateTestPptx.create_test_pptx tpl e (CreateTestPptx.world_at_call e))
    as [[path|x'] w'] eqn:Hr.
  - destruct Hn as (Hnone & _). rewrite (Hnone k Hk) in Hx. done.
  - destruct Hf as (k' & Hk' & Hnf' & Hx' & Hfiles & Hout & Herr & Henc).
    destruct (first_fault_unique e k k' x x' Hnf Hx Hnf' Hx') as [<- <-].
    rewrite app_nil_l in Hout.
    unfold handler_lines, handler_trace, missing_dependency_lines.
    destruct (is_ImportError x); unfold write_stdout, write_stderr;
      cbn [exit_status final stdout stderr files];
      rewrite Hfiles, Hout, Herr, ?Henc, ?fmap_app, untag;
      cbn [fmap list_fmap snd stdout_encoding app]; rewrite <- ?app_assoc; done.
Qed.

(** X3.  tests/fixtures/create_simple_pptx.py, template fitting: when
    the first library call to fail is call [k] and it raises [x], the
    process ends with status 1, nothing on standard output and the trace
    of [x] on standard error.  The files are as they were, unless the
    failing call is the save and it failed midway: then a half-written
    file is at the output path, in place of what was there. *)
Theorem first_fault_crashes tpl e k x :
  pptx_installed e = true ->
  fits create_simple_pptx_py tpl = true ->
  first_fault e k x ->
  (k < 27)%nat ->
  exit_status (run create_simple_pptx_py tpl e) = 1 /\
  output_lines create_simple_pptx_py tpl e = [] /\
  stderr (final (run create_simple_pptx_py tpl e)) = [Traceback x] /\
  files (final (run create_simple_pptx_py tpl e)) =
    files_after_fault create_simple_pptx_py tpl (save_fails_midway e) k (initial_files e).
Proof.
  intros Hp Hfit [Hnf Hx]%first_fault_plus Hk.
  pose proof (module_body_faults tpl e None 0 (console_encoding e) [] []
                (initial_files e) Hp Hfit) as Hf.
  pose proof (module_body_needs tpl e None 0 (console_encoding e) [] [] (initial_files e)) as Hn.
  unfold wp in Hf, Hn.
  change (World None 0 (console_encoding e) [] [] (initial_files e))
    with (initial_world e) in Hf, Hn.
  unfold output_lines. cbn [run]. unfold CreateSimplePptx.run, run_process.
  destruct (CreateSimplePptx.module_body tpl e (initial_world e)) as [[u|x'] w'] eqn:Hr.
  - destruct Hn as (Hnone & _). rewrite (Hnone k Hk) in Hx. done.
  - destruct Hf as (k' & Hk' & Hnf' & Hx' & Hfiles & Hout & Herr).
    destruct (first_fault_unique e k k' x x' Hnf Hx Hnf' Hx') as [<- <-].
    unfold write_stderr. cbn [exit_status final stdout stderr files].
    by rewrite Hfiles, Hout, Herr.
Qed.

(** X4.  After any run of either script, failed or not, only the
    script's output path can differ from what it was.  The files are as
    they were, or the complete document is at the output path, or a
    half-written file is there; the last happens only when the run got
    as far as the save and the save was the first library call to fail,
    midway.  No run saves a partly built document and none deletes what
    it has written. *)
Theorem files_after_a_run s tpl e :
  files (final (run s tpl e)) = initial_files e \/
  files (final (run s tpl e))
    = <[output_path s := Package (described_document s tpl)]> (initial_files e) \/
  (files (final (run s tpl e)) = <[output_path s := HalfWritten]> (initial_files e) /\
   pptx_installed e = true /\ stdout_fits s e = true /\ save_fails_midway e = true /\
   exists x, first_fault e (save_call s) x).
Proof.
  destruct s; cbn [run output_path described_document stdout_fits save_call].
  - destruct (pptx_installed e) eqn:Hp;
      [destruct (stdout_buffer_fault e) as [y|] eqn:Hy | ].
    + rewrite (create_test_pptx_py_run_no_buffer tpl e y Hp Hy). by left.
    + assert (Hb : stdout_has_buffer e = true) by (unfold stdout_has_buffer; by rewrite Hy).
      rewrite (create_test_pptx_py_run tpl e Hp Hb).
      pose proof (create_test_pptx_needs tpl e None 0 "utf-8" [] [] (initial_files e)) as Hn.
      pose proof (create_test_pptx_wp tpl e None 0 "utf-8" [] [] (initial_files e)) as Hw.
      unfold wp in Hn, Hw.
      change (World None 0 "utf-8" [] [] (initial_files e))
        with (CreateTestPptx.world_at_call e) in Hn, Hw.
      destruct (CreateTestPptx.create_test_pptx tpl e (CreateTestPptx.world_at_call e))
        as [[path|x] w'].
      * destruct Hw as (_ & -> & _). by right; left.
      * destruct Hn as [[Hfs _]|[(Hfs & _ & Hm & Hnf & x' & Hx')|[Hfs _]]];
          destruct (is_ImportError x); cbn; rewrite Hfs; auto.
        all: right; right; split_and!; try done.
        all: exists x'; exact (first_fault_from_zero e 30 x' Hnf Hx').
    + rewrite (create_test_pptx_py_run_no_pptx tpl e Hp). by left.
  - unfold CreateSimplePptx.run, run_process.
    pose proof (module_body_needs tpl e None 0 (console_encoding e) [] [] (initial_files e)) as Hn.
    pose proof (module_body_wp tpl e None 0 (console_encoding e) [] [] (initial_files e)) as Hw.
    unfold wp in Hn, Hw.
    change (World None 0 (console_encoding e) [] [] (initial_files e))
      with (initial_world e) in Hn, Hw.
    destruct (CreateSimplePptx.module_body tpl e (initial_world e)) as [[u|x] w'].
    + destruct Hw as (_ & -> & _). by right; left.
    + cbn. destruct Hn as [->|(-> & Hp & Hm & Hnf & x' & Hx')]; [by left|].
      right; right; split_and!; try done.
      exists x'. exact (first_fault_from_zero e 26 x' Hnf Hx').
Qed.

(** X5.  Whenever a script's success line is on standard output, its
    output path holds the complete document, also in the runs of
    create-test-pptx.py that fail after the save. *)
Theorem success_line_means_saved s tpl e :
  success_line s ∈ output_lines s tpl e ->
  files (final (run s tpl e)) !! output_path s = Some (Package (described_document s tpl)).
Proof.
  unfold output_lines. destruct s; cbn [run output_path described_document success_line].
  - destruct (pptx_installed e) eqn:Hp;
      [destruct (stdout_buffer_fault e) as [y|] eqn:Hy | ].
    + rewrite (create_test_pptx_py_run_no_buffer tpl e y Hp Hy). cbn. by intros Hin%elem_of_nil.
    + assert (Hb : stdout_has_buffer e = true) by (unfold stdout_has_buffer; by rewrite Hy).
      rewrite (create_test_pptx_py_run tpl e Hp Hb).
      pose proof (create_test_pptx_needs tpl e None 0 "utf-8" [] [] (initial_files e)) as Hn.
      pose proof (create_test_pptx_wp tpl e None 0 "utf-8" [] [] (initial_files e)) as Hw.
      unfold wp in Hn, Hw.
      change (World None 0 "utf-8" [] [] (initial_files e))
        with (CreateTestPptx.world_at_call e) in Hn, Hw.
      destruct (CreateTestPptx.create_test_pptx tpl e (CreateTestPptx.world_at_call e))
        as [[path|x] w'].
      * destruct Hw as (_ & -> & _). intros _. cbn. apply lookup_insert_eq.
      * destruct Hn as [[Hfiles Hout]|[(Hfiles & Hout & _)|[Hfiles _]]].
        -- destruct (is_ImportError x); cbn; rewrite Hout; cbn; intros Hin;
             repeat (apply elem_of_cons in Hin as [Hin|Hin]; [discriminate Hin|]);
             by apply elem_of_nil in Hin.
        -- destruct (is_ImportError x); cbn; rewrite Hout; cbn; intros Hin;
             repeat (apply elem_of_cons in Hin as [Hin|Hin]; [discriminate Hin|]);
             by apply elem_of_nil in Hin.
        -- intros _. destruct (is_ImportError x); cbn; rewrite Hfiles; apply lookup_insert_eq.
    + rewrite (create_test_pptx_py_run_no_pptx tpl e Hp). cbn. by intros Hin%elem_of_nil.
  - unfold CreateSimplePptx.run, run_process.
    pose proof (module_body_wp tpl e None 0 (console_encoding e) [] [] (initial_files e)) as Hw.
    unfold wp in Hw.
    change (World None 0 (console_encoding e) [] [] (initial_files e))
      with (initial_world e) in Hw.
    destruct (CreateSimplePptx.module_body tpl e (initial_world e)) as [[u|x] w'].
    + destruct Hw as (_ & -> & _). intros _. cbn. apply lookup_insert_eq.
    + destruct Hw as (Hout & _). cbn. rewrite Hout. by intros Hin%elem_of_nil.
Qed.

(** X1.  A run of either script succeeds exactly when python-pptx is
    importable, [sys.stdout] has the buffer line 14 of
    create-test-pptx.py reads (create_simple_pptx.py asks nothing of
    it), none of the library calls the script makes (33 and 27) fails,
    and the template has the layouts the script indexes with the
    placeholders it writes. *)
Theorem succeeds_iff s tpl e :
  succeeds s tpl e = true <->
  pptx_installed e = true /\ stdout_fits s e = true /\
  no_fault_before (library_calls s) e /\ fits s tpl = true.
Proof. apply succeeds_conditions. Qed.

(** X6.  A successful run can be repeated over the files it left: the
    second run succeeds too, leaves the files as the first did and
    builds the same document. *)
Theorem rerun_overwrites s tpl e :
  succeeds s tpl e = true ->
  succeeds s tpl (with_files e (files (final (run s tpl e)))) = true /\
  files (final (run s tpl (with_files e (files (final (run s tpl e))))))
    = files (final (run s tpl e)) /\
  document s tpl (with_files e (files (final (run s tpl e)))) = document s tpl e.
Proof.
  intros Hs.
  assert (Hs' : succeeds s tpl (with_files e (files (final (run s tpl e)))) = true).
  { apply succeeds_conditions in Hs as (? & ? & ? & ?).
    apply succeeds_conditions. split_and!; assumption. }
  destruct (success_final s tpl e Hs) as (Hdoc & _ & _ & Hfiles & _).
  destruct (success_final s tpl _ Hs') as (Hdoc' & _ & _ & Hfiles' & _).
  split; [exact Hs'|].
  unfold document. rewrite Hdoc', Hdoc, Hfiles'. cbn [initial_files with_files].
  rewrite Hfiles, insert_insert_eq. done.
Qed.


(** X9.  scripts/create-test-pptx.py prints "Need to install
    python-pptx" exactly in the runs that reach the main guard
    (python-pptx importable, [sys.stdout] replaced) and in which
    [create_test_pptx()] raised an import error. *)
Theorem install_hint_iff tpl e :
  "[ERROR] Need to install python-pptx" ∈ output_lines create_test_pptx_py tpl e <->
  pptx_installed e = true /\ stdout_has_buffer e = true /\
  exists x w', CreateTestPptx.create_test_pptx tpl e (CreateTestPptx.world_at_call e)
               = (Raise x, w') /\ is_ImportError x = true.
Proof.
  unfold output_lines. cbn [run]. destruct (pptx_installed e) eqn:Hp;
    [destruct (stdout_buffer_fault e) as [y|] eqn:Hy | ].
  - rewrite (create_test_pptx_py_run_no_buffer tpl e y Hp Hy). cbn. split.
    + by intros Hin%elem_of_nil.
    + unfold stdout_has_buffer. rewrite Hy. by intros (_ & ? & _).
  - assert (Hb : stdout_has_buffer e = true) by (unfold stdout_has_buffer; by rewrite Hy).
    rewrite (create_test_pptx_py_run tpl e Hp Hb).
    pose proof (create_test_pptx_needs tpl e None 0 "utf-8" [] [] (initial_files e)) as Hn.
    pose proof (create_test_pptx_wp tpl e None 0 "utf-8" [] [] (initial_files e)) as Hw.
    unfold wp in Hn, Hw.
    change (World None 0 "utf-8" [] [] (initial_files e))
      with (CreateTestPptx.world_at_call e) in Hn, Hw.
    destruct (CreateTestPptx.create_test_pptx tpl e (CreateTestPptx.world_at_call e))
      as [[path|x] w'].
    + destruct Hw as (_ & -> & _). split.
      * cbn. intros Hin.
        repeat (apply elem_of_cons in Hin as [Hin|Hin]; [discriminate Hin|]).
        by apply elem_of_nil in Hin.
      * by intros (_ & _ & x & w' & [=] & _).
    + destruct (is_ImportError x) eqn:Hx.
      * split; [by eauto 6|]. intros _. cbn. rewrite !fmap_app. cbn.
        rewrite !elem_of_app, !list_elem_of_singleton. by left; right.
      * split; [ | intros (_ & _ & x' & w'' & [= <- <-] & Hx'); congruence].
        intros Hin. exfalso. cbn in Hin.
        destruct Hn as [[_ Hout]|[(_ & Hout & _)|[_ [Hout|Hout]]]];
          rewrite Hout in Hin; cbn in Hin;
          repeat (apply elem_of_cons in Hin as [Hin|Hin]; [discriminate Hin|]);
          by apply elem_of_nil in Hin.
  - rewrite (create_test_pptx_py_run_no_pptx tpl e Hp). cbn. split.
    + by intros Hin%elem_of_nil.
    + by intros [? _].
Qed.

(** X10.  scripts/create-test-pptx.py does not check [shapes.title]
    for [None]: with a first layout that has a placeholder 1 and no
    title, the run (lines 6 to 14 gone through) ends in the
    AttributeError of [None.text = ...], reported as a general failure,
    with status 0 and no file. *)
Theorem missing_title_is_reported tpl e first k :
  pptx_installed e = true ->
  stdout_has_buffer e = true ->
  tpl_layouts tpl !! 0%nat = Some first ->
  has_placeholder 0 first = false ->
  find_index (is_placeholder 1) (cloned_placeholders first) = Some k ->
  no_fault_before 7 e ->
  exit_status (run create_test_pptx_py tpl e) = 0 /\
  output_lines create_test_pptx_py tpl e =
    ["[ERROR] Failed to create file: 'NoneType' object has no attribute 'text'"] /\
  stderr (final (run create_test_pptx_py tpl e)) = [Traceback none_has_no_text] /\
  files (final (run create_test_pptx_py tpl e)) = initial_files e.
Proof.
  intros Hp Hb Hl0 Hno Hk Hnf0.
  pose proof (proj1 (no_fault_before_plus 7 e) Hnf0) as Hnf.
  assert (Hj : find_index (is_placeholder 0) (cloned_placeholders first) = None).
  { unfold has_placeholder in Hno.
    by destruct (find_index (is_placeholder 0) (cloned_placeholders first)). }
  pose proof (create_test_pptx_without_title tpl e first k None 0 "utf-8" [] []
                (initial_files e) Hl0 Hj Hk Hnf) as Hw.
  unfold wp in Hw.
  change (World None 0 "utf-8" [] [] (initial_files e))
    with (CreateTestPptx.world_at_call e) in Hw.
  unfold output_lines. cbn [run]. rewrite (create_test_pptx_py_run tpl e Hp Hb).
  destruct (CreateTestPptx.create_test_pptx tpl e (CreateTestPptx.world_at_call e))
    as [[path|x] w']; [done|].
  destruct Hw as (-> & Hfiles & Hout & Herr & Henc).
  cbn. by rewrite Hfiles, Hout, Herr, Henc.
Qed.

(** X11.  tests/fixtures/create_simple_pptx.py with a first layout
    without title: the same AttributeError, uncaught; status 1, nothing
    on standard output, no file. *)
Theorem missing_title_crashes tpl e first :
  pptx_installed e = true ->
  tpl_layouts tpl !! 0%nat = Some first ->
  has_placeholder 0 first = false ->
  no_fault_before 6 e ->
  exit_status (run create_simple_pptx_py tpl e) = 1 /\
  output_lines create_simple_pptx_py tpl e = [] /\
  stderr (final (run create_simple_pptx_py tpl e)) = [Traceback none_has_no_text] /\
  files (final (run create_simple_pptx_py tpl e)) = initial_files e.
Proof.
  intros Hp Hl0 Hno Hnf0.
  pose proof (proj1 (no_fault_before_plus 6 e) Hnf0) as Hnf.
  assert (Hj : find_index (is_placeholder 0) (cloned_placeholders first) = None).
  { unfold has_placeholder in Hno.
    by destruct (find_index (is_placeholder 0) (cloned_placeholders first)). }
  pose proof (module_body_without_title tpl e first None 0 (console_encoding e) [] []
                (initial_files e) Hp Hl0 Hj Hnf) as Hw.
  unfold wp in Hw.
  change (World None 0 (console_encoding e) [] [] (initial_files e))
    with (initial_world e) in Hw.
  unfold output_lines. cbn [run]. unfold CreateSimplePptx.run, run_process.
  destruct (CreateSimplePptx.module_body tpl e (initial_world e)) as [[u|x] w']; [done|].
  destruct Hw as (-> & Hfiles & Hout & Herr).
  cbn. by rewrite Hfiles, Hout, Herr.
Qed.

(** X12.  The document of a successful run has the page size the
    script sets, 10in by 7.5in, whatever the template's, and the
    template's layouts unchanged. *)
Theorem page_size_and_layouts s tpl e :
  succeeds s tpl e = true ->
  exists p,
    document s tpl e = Some p /\
    slide_width p = Inches 10 /\ slide_height p = Inches 7.5 /\
    slide_layouts p = tpl_layouts tpl.
Proof.
  intros Hs. destruct (success_final s tpl e Hs) as (Hdoc & _).
  exists (described_document s tpl). split; [done|]. by destruct s.
Qed.

(** placeholders of a slide as set by the scripts *)
Lemma cloned_all_placeholders layout :
  Forall (fun sh => is_placeholder_shape sh = true) (cloned_placeholders layout).
Proof. unfold cloned_placeholders. apply Forall_fmap, Forall_forall. done. Qed.

Lemma set_placeholder_text_all_placeholders idx t l :
  Forall (fun sh => is_placeholder_shape sh = true) l ->
  Forall (fun sh => is_placeholder_shape sh = true) (set_placeholder_text idx t l).
Proof.
  intros Hl. unfold set_placeholder_text.
  destruct (find_index (is_placeholder idx) l) as [j|]; [ | done].
  destruct (l !! j) as [sh|] eqn:Hj; [ | done].
  apply Forall_insert; [done|].
  unfold is_placeholder_shape, set_shape_text. cbn.
  by apply (Forall_lookup_1 _ _ _ _ Hl Hj).
Qed.

Lemma added_shapes_title_slide_of layout title subtitle :
  added_shapes (title_slide_of layout title subtitle) = [].
Proof.
  unfold added_shapes, title_slide_of. cbn [slide_shapes].
  apply filter_none.
  eapply Forall_impl;
    [ apply set_placeholder_text_all_placeholders, set_placeholder_text_all_placeholders,
            cloned_all_placeholders | ].
  by intros sh ->.
Qed.

Lemma added_shapes_content_slide_of layout title added :
  Forall (fun sh => is_placeholder_shape sh = false) added ->
  added_shapes (content_slide_of layout title added) = added.
Proof.
  intros Hadded. unfold added_shapes, content_slide_of. cbn [slide_shapes].
  rewrite List.filter_app, filter_none.
  - cbn [app]. induction Hadded as [|sh l Hsh _ IH]; [done|].
    cbn. rewrite Hsh. cbn. by rewrite IH.
  - eapply Forall_impl;
      [ apply set_placeholder_text_all_placeholders, cloned_all_placeholders | ].
    by intros sh ->.
Qed.

(** X13.  The document of a successful run has two slides.  The first
    holds placeholders only.  On the second, the shapes that are not
    placeholders are, in z-order, the text box, the rectangle and the
    second text box of create-test-pptx.py, and the one text box of
    create_simple_pptx.py, with the geometry, word wrap, texts and fonts
    of the source.  The text boxes have the explicit no-fill and the
    inherited outline the library gives a new text box; the second text
    box of create-test-pptx.py keeps the library's [wrap="none"]. *)
Theorem shapes_added s tpl e :
  succeeds s tpl e = true ->
  exists p sl1 sl2,
    document s tpl e = Some p /\ slides p = [sl1; sl2] /\
    added_shapes sl1 = [] /\
    added_shapes sl2 =
      match s with
      | create_test_pptx_py =>
          [ Shape TextBox (Some (Geometry (Inches 1) (Inches 2) (Inches 3) (Inches 1)))
                  (TextFrame (Some true)
                     [Paragraph "This is a test text box" (Some (Pt 18)) None 0])
                  FillBackground (LineFormat FillInherited None);
            Shape (AutoShape RECTANGLE)
                  (Some (Geometry (Inches 5) (Inches 2) (Inches 2) (Inches 1.5)))
                  (TextFrame None [Paragraph "" None None 0])
                  (FillSolid (Some (Rgb 0x70 0xC0 0x00)))
                  (LineFormat (FillSolid (Some (Rgb 0 0 0))) (Some (Pt 1)));
            Shape TextBox (Some (Geometry (Inches 1) (Inches 4) (Inches 6) (Inches 1)))
                  (TextFrame (Some false)
                     [Paragraph "Element 2: Another text box" (Some (Pt 14)) (Some true) 0])
                  FillBackground (LineFormat FillInherited None) ]
      | create_simple_pptx_py =>
          [ Shape TextBox (Some (Geometry (Inches 1) (Inches 2) (Inches 8) (Inches 4)))
                  (TextFrame (Some true)
                     [ Paragraph "这是第一行文本" (Some (Pt 18)) None 0;
                       Paragraph "这是第二行文本" (Some (Pt 18)) None 1;
                       Paragraph "这是第三行文本" (Some (Pt 18)) None 0 ])
                  FillBackground (LineFormat FillInherited None) ]
      end.
Proof.
  intros Hs. destruct (success_final s tpl e Hs) as (Hdoc & _).
  unfold document. rewrite Hdoc.
  destruct s; cbn [described_document]; eexists _, _, _;
    (split; [reflexivity|]); (split; [reflexivity|]);
    (split; [apply added_shapes_title_slide_of|]);
    rewrite added_shapes_content_slide_of; [reflexivity | by repeat constructor
                                           | reflexivity | by repeat constructor].
Qed.

Lemma find_index_app_l p l1 l2 j :
  find_index p l1 = Some j -> find_index p (l1 ++ l2) = Some j.
Proof.
  revert j. induction l1 as [|x l1 IH]; intros j; cbn; [done|].
  destruct (p x); [done|].
  destruct (find_index p l1) as [k|]; [ | done].
  intros [= <-]. by rewrite (IH k).
Qed.

Lemma set_placeholder_text_read idx t l :
  is_Some (find_index (is_placeholder idx) l) ->
  exists j sh,
    find_index (is_placeholder idx) (set_placeholder_text idx t l) = Some j /\
    set_placeholder_text idx t l !! j = Some sh /\ shape_text sh = t.
Proof.
  intros [j Hj]. destruct (find_index_Some _ _ _ Hj) as (sh & Hsh & Hp).
  exists j, (set_shape_text t sh).
  rewrite find_index_set_placeholder_text.
  rewrite (set_placeholder_text_found idx t l j sh Hj Hsh).
  split_and!; [done | | apply shape_text_set_shape_text].
  apply list_lookup_insert_eq. by eapply lookup_lt_Some.
Qed.

Lemma subtitle_of_title_slide_of layout title subtitle :
  has_placeholder 1 layout = true ->
  placeholder_text 1 (title_slide_of layout title subtitle) = Some subtitle.
Proof.
  intros (k & shk & Hk & _)%has_placeholder_true.
  unfold placeholder_text, title_slide_of. cbn [slide_shapes].
  destruct (set_placeholder_text_read 1 subtitle
              (set_placeholder_text 0 title (cloned_placeholders layout)))
    as (j & sh & Hj & Hsh & <-).
  { rewrite find_index_set_placeholder_text. by eexists. }
  rewrite Hj. cbn. by rewrite Hsh.
Qed.

Lemma title_of_content_slide_of layout title added :
  has_placeholder 0 layout = true ->
  title_text (content_slide_of layout title added) = Some title.
Proof.
  intros (k & shk & Hk & _)%has_placeholder_true.
  unfold title_text, content_slide_of. cbn [slide_shapes].
  destruct (set_placeholder_text_read 0 title (cloned_placeholders layout))
    as (j & sh & Hj & Hsh & <-); [by eexists|].
  rewrite (find_index_app_l _ _ _ _ Hj). cbn.
  rewrite lookup_app_l by (by eapply lookup_lt_Some).
  by rewrite Hsh.
Qed.

(** X14.  In the document of a successful run, placeholder 1 of the
    first slide reads the subtitle literal and the title of the second
    slide reads its title literal. *)
Theorem subtitle_and_second_title s tpl e :
  succeeds s tpl e = true ->
  exists p sl1 sl2,
    document s tpl e = Some p /\ slides p = [sl1; sl2] /\
    placeholder_text 1 sl1 = Some (subtitle_literal s) /\
    title_text sl2 = Some (second_title_literal s).
Proof.
  intros Hs. destruct (success_final s tpl e Hs) as (Hdoc & _).
  apply succeeds_conditions in Hs as (_ & _ & _ & Hfit).
  destruct (fits_facts s tpl Hfit)
    as (first & second & j & sh & k & shk & j2 & sh2 & Hl0 & Hl2 & Hj & _ & Hk & _ & _ & Hj2 & _).
  unfold document. rewrite Hdoc.
  destruct s; cbn [described_document subtitle_literal second_title_literal];
    eexists _, _, _; (split; [reflexivity|]); (split; [reflexivity|]);
    rewrite (layout_at_found _ _ _ Hl0), (layout_at_found _ _ _ Hl2);
    (split; [ apply subtitle_of_title_slide_of; by eapply has_placeholder_found
            | apply title_of_content_slide_of; by eapply has_placeholder_found ]).
Qed.

(** ** The theorems above at concrete runs *)
Lemma env_failing_at_first_fault n x : first_fault (env_failing_at n x) n x.
Proof.
  split.
  - intros k Hk. cbn. destruct (Nat.eqb_spec k n); [lia | done].
  - cbn. by rewrite Nat.eqb_refl.
Qed.

Lemma quiet_env_no_fault n : no_fault_before n quiet_env.
Proof. by intros k Hk. Qed.

Lemma env_save_refused_first_fault n x : first_fault (env_save_refused n x) n x.
Proof.
  split.
  - intros k Hk. cbn. destruct (Nat.eqb_spec k n); [lia | done].
  - cbn. by rewrite Nat.eqb_refl.
Qed.

(** X1 at the quiet run of create-test-pptx.py, which succeeds, and at
    the same run without standard output, which does not. *)
Lemma succeeds_iff_witness :
  succeeds create_test_pptx_py default_template quiet_env = true /\
  succeeds create_test_pptx_py default_template env_without_stdout = false.
Proof.
  split.
  - apply (proj2 (succeeds_iff create_test_pptx_py default_template quiet_env)).
    split_and!; [reflexivity | reflexivity | apply quiet_env_no_fault | reflexivity].
  - destruct (succeeds create_test_pptx_py default_template env_without_stdout) eqn:Hs;
      [ | reflexivity].
    destruct (proj1 (succeeds_iff create_test_pptx_py default_template env_without_stdout) Hs)
      as (_ & Hb & _).
    discriminate Hb.
Defined.

(** X2 where [prs.save] runs out of disk space midway: the error is
    reported, the status is 0, and a half-written file is left. *)
Lemma first_fault_is_reported_witness :
  (exit_status (run create_test_pptx_py default_template (env_failing_at 30 disk_full)) = 0 /\
   output_lines create_test_pptx_py default_template (env_failing_at 30 disk_full) =
     printed_before 30 ++ handler_lines disk_full /\
   stderr (final (run create_test_pptx_py default_template (env_failing_at 30 disk_full)))
     = handler_trace disk_full /\
   files (final (run create_test_pptx_py default_template (env_failing_at 30 disk_full))) =
     files_after_fault create_test_pptx_py default_template
       (save_fails_midway (env_failing_at 30 disk_full)) 30
       (initial_files (env_failing_at 30 disk_full))) /\
  files_after_fault create_test_pptx_py default_template
    (save_fails_midway (env_failing_at 30 disk_full)) 30
    (initial_files (env_failing_at 30 disk_full)) !! "tests/fixtures/simple.pptx"
  = Some HalfWritten.
Proof.
  split; [ | vm_compute; reflexivity].
  apply (first_fault_is_reported default_template (env_failing_at 30 disk_full) 30 disk_full).
  - reflexivity.
  - reflexivity.
  - reflexivity.
  - apply env_failing_at_first_fault.
  - lia.
Defined.

(** X3 at two failing saves over nothing and over an old file: out of
    disk space midway, which leaves a half-written file, and refused
    before the target is opened, which leaves the old file. *)
Lemma first_fault_crashes_witness :
  (exit_status (run create_simple_pptx_py default_template (env_failing_at 26 disk_full)) = 1 /\
   output_lines create_simple_pptx_py default_template (env_failing_at 26 disk_full) = [] /\
   stderr (final (run create_simple_pptx_py default_template (env_failing_at 26 disk_full)))
     = [Traceback disk_full] /\
   files (final (run create_simple_pptx_py default_template (env_failing_at 26 disk_full))) =
     files_after_fault create_simple_pptx_py default_template
       (save_fails_midway (env_failing_at 26 disk_full)) 26
       (initial_files (env_failing_at 26 disk_full))) /\
  files_after_fault create_simple_pptx_py default_template
    (save_fails_midway (env_failing_at 26 disk_full)) 26
    (initial_files (env_failing_at 26 disk_full)) !! "simple.pptx" = Some HalfWritten /\
  (exit_status (run create_simple_pptx_py default_template
                  (env_save_refused 26 permission_denied)) = 1 /\
   output_lines create_simple_pptx_py default_template
     (env_save_refused 26 permission_denied) = [] /\
   stderr (final (run create_simple_pptx_py default_template
                    (env_save_refused 26 permission_denied)))
     = [Traceback permission_denied] /\
   files (final (run create_simple_pptx_py default_template
                   (env_save_refused 26 permission_denied))) =
     files_after_fault create_simple_pptx_py default_template
       (save_fails_midway (env_save_refused 26 permission_denied)) 26
       (initial_files (env_save_refused 26 permission_denied))) /\
  files_after_fault create_simple_pptx_py default_template
    (save_fails_midway (env_save_refused 26 permission_denied)) 26
    (initial_files (env_save_refused 26 permission_denied)) !! "simple.pptx"
  = Some (Package (Presentation_ 1 1 [] [])).
Proof.
  split.
  { apply (first_fault_crashes default_template (env_failing_at 26 disk_full) 26 disk_full).
    - reflexivity.
    - reflexivity.
    - apply env_failing_at_first_fault.
    - lia. }
  split; [vm_compute; reflexivity | ].
  split; [ | vm_compute; reflexivity].
  apply (first_fault_crashes default_template (env_save_refused 26 permission_denied) 26
           permission_denied).
  - reflexivity.
  - reflexivity.
  - apply env_save_refused_first_fault.
  - lia.
Defined.

Lemma success_line_means_saved_witness :
  files (final (run create_test_pptx_py default_template quiet_env))
    !! output_path create_test_pptx_py
  = Some (Package (described_document create_test_pptx_py default_template)).
Proof.
  apply (success_line_means_saved create_test_pptx_py default_template quiet_env).
  vm_compute. constructor.
Defined.

Lemma rerun_overwrites_witness :
  succeeds create_simple_pptx_py default_template
    (with_files quiet_env (files (final (run create_simple_pptx_py default_template quiet_env))))
    = true /\
  files (final (run create_simple_pptx_py default_template
                  (with_files quiet_env
                     (files (final (run create_simple_pptx_py default_template quiet_env))))))
    = files (final (run create_simple_pptx_py default_template quiet_env)) /\
  document create_simple_pptx_py default_template
    (with_files quiet_env (files (final (run create_simple_pptx_py default_template quiet_env))))
    = document create_simple_pptx_py default_template quiet_env.
Proof.
  apply (rerun_overwrites create_simple_pptx_py default_template quiet_env).
  vm_compute. reflexivity.
Defined.

Lemma install_hint_iff_witness :
  "[ERROR] Need to install python-pptx"
    ∈ output_lines create_test_pptx_py default_template (env_failing_at 4 lxml_missing).
Proof.
  apply (proj2 (install_hint_iff default_template (env_failing_at 4 lxml_missing))).
  split; [reflexivity|]. split; [reflexivity|].
  exists lxml_missing,
    (CreateTestPptx.create_test_pptx default_template (env_failing_at 4 lxml_missing)
       (CreateTestPptx.world_at_call (env_failing_at 4 lxml_missing))).2.
  split; [vm_compute; reflexivity | reflexivity].
Defined.

Lemma missing_title_is_reported_witness :
  exit_status (run create_test_pptx_py untitled_template quiet_env) = 0 /\
  output_lines create_test_pptx_py untitled_template quiet_env =
    ["[ERROR] Failed to create file: 'NoneType' object has no attribute 'text'"] /\
  stderr (final (run create_test_pptx_py untitled_template quiet_env))
    = [Traceback none_has_no_text] /\
  files (final (run create_test_pptx_py untitled_template quiet_env)) = initial_files quiet_env.
Proof.
  apply (missing_title_is_reported untitled_template quiet_env
           (SlideLayout "Caption" [LayoutPh 1 PH_SUBTITLE]) 0).
  - reflexivity.
  - reflexivity.
  - reflexivity.
  - reflexivity.
  - reflexivity.
  - apply quiet_env_no_fault.
Defined.

Lemma missing_title_crashes_witness :
  exit_status (run create_simple_pptx_py untitled_template quiet_env) = 1 /\
  output_lines create_simple_pptx_py untitled_template quiet_env = [] /\
  stderr (final (run create_simple_pptx_py untitled_template quiet_env))
    = [Traceback none_has_no_text] /\
  files (final (run create_simple_pptx_py untitled_template quiet_env))
    = initial_files quiet_env.
Proof.
  apply (missing_title_crashes untitled_template quiet_env
           (SlideLayout "Caption" [LayoutPh 1 PH_SUBTITLE])).
  - reflexivity.
  - reflexivity.
  - reflexivity.
  - apply quiet_env_no_fault.
Defined.

Lemma page_size_and_layouts_witness :
  exists p,
    document create_test_pptx_py default_template busy_env = Some p /\
    slide_width p = Inches 10 /\ slide_height p = Inches 7.5 /\
    slide_layouts p = tpl_layouts default_template.
Proof.
  apply (page_size_and_layouts create_test_pptx_py default_template busy_env).
  vm_compute. reflexivity.
Defined.

Lemma subtitle_and_second_title_witness :
  exists p sl1 sl2,
    document create_simple_pptx_py default_template quiet_env = Some p /\
    slides p = [sl1; sl2] /\
    placeholder_text 1 sl1 = Some "这是一个简单的测试 PPTX" /\
    title_text sl2 = Some "主要内容".
Proof.
  apply (subtitle_and_second_title create_simple_pptx_py default_template quiet_env).
  vm_compute. reflexivity.
Defined.

Lemma shapes_added_witness :
  exists p sl1 sl2,
    document create_simple_pptx_py default_template quiet_env = Some p /\
    slides p = [sl1; sl2] /\
    added_shapes sl1 = [] /\
    added_shapes sl2 =
      [ Shape TextBox (Some (Geometry (Inches 1) (Inches 2) (Inches 8) (Inches 4)))
              (TextFrame (Some true)
                 [ Paragraph "这是第一行文本" (Some (Pt 18)) None 0;
                   Paragraph "这是第二行文本" (Some (Pt 18)) None 1;
                   Paragraph "这是第三行文本" (Some (Pt 18)) None 0 ])
              FillBackground (LineFormat FillInherited None) ].
Proof.
  apply (shapes_added create_simple_pptx_py default_template quiet_env).
  vm_compute. reflexivity.
Defined.

(** X15.  [create_test_pptx()] called again after it returned returns
    the same path, leaves the same presentation and the same files, and
    prints its three lines once more. *)
Theorem create_test_pptx_twice tpl e w path1 w1 path2 w2 :
  CreateTestPptx.create_test_pptx tpl e w = (Ok path1, w1) ->
  CreateTestPptx.create_test_pptx tpl e w1 = (Ok path2, w2) ->
  path2 = path1 /\ heap_prs w2 = heap_prs w1 /\ files w2 = files w1 /\
  stdout w2 = stdout w1 ++ ((fun l => (stdout_encoding w, l)) <$> success_lines create_test_pptx_py).
Proof.
  intros H1 H2.
  destruct w as [h c enc out err fs].
  pose proof (create_test_pptx_wp tpl e h c enc out err fs) as Hw1.
  unfold wp in Hw1. rewrite H1 in Hw1. destruct Hw1 as (-> & -> & _).
  match type of H2 with
  | _ _ _ (World ?h' ?c' ?enc' ?out' ?err' ?fs') = _ =>
      pose proof (create_test_pptx_wp tpl e h' c' enc' out' err' fs') as Hw2
  end.
  unfold wp in Hw2. rewrite H2 in Hw2. destruct Hw2 as (-> & -> & _).
  cbn. by rewrite insert_insert_eq.
Qed.

Lemma create_test_pptx_twice_witness :
  "tests/fixtures/simple.pptx" = "tests/fixtures/simple.pptx" /\
  heap_prs (CreateTestPptx.create_test_pptx default_template quiet_env
              (CreateTestPptx.create_test_pptx default_template quiet_env
                 (CreateTestPptx.world_at_call quiet_env)).2).2
  = heap_prs (CreateTestPptx.create_test_pptx default_template quiet_env
                (CreateTestPptx.world_at_call quiet_env)).2 /\
  files (CreateTestPptx.create_test_pptx default_template quiet_env
           (CreateTestPptx.create_test_pptx default_template quiet_env
              (CreateTestPptx.world_at_call quiet_env)).2).2
  = files (CreateTestPptx.create_test_pptx default_template quiet_env
             (CreateTestPptx.world_at_call quiet_env)).2 /\
  stdout (CreateTestPptx.create_test_pptx default_template quiet_env
            (CreateTestPptx.create_test_pptx default_template quiet_env
               (CreateTestPptx.world_at_call quiet_env)).2).2
  = stdout (CreateTestPptx.create_test_pptx default_template quiet_env
              (CreateTestPptx.world_at_call quiet_env)).2
    ++ ((fun l => (stdout_encoding (CreateTestPptx.world_at_call quiet_env), l))
          <$> success_lines create_test_pptx_py).
Proof.
  apply (create_test_pptx_twice default_template quiet_env
           (CreateTestPptx.world_at_call quiet_env)).
  - vm_compute. reflexivity.
  - vm_compute. reflexivity.
Defined.
